(** * Library management service: borrowing and fee engine

    A shallow embedding of [services/library_service.py] and the proofs of
    its specified properties.

    Conventions of the embedding.
    - Python [int] is [Z]; Python [str] is [string], read as ASCII text.
    - Money is a Python [float] in the source.  Every amount the engine
      computes is a multiple of one half below 2^24, and every comparison
      is against 0 or 15, so binary64 arithmetic is exact on them; amounts
      are modelled by exact rationals [Q].
    - [datetime] is the record of its calendar and clock fields; dates are
      ordered and subtracted the way CPython's [datetime] module does it,
      through the proleptic Gregorian ordinal.
    - The persistence module, the payment gateway class and the wall clock
      are collaborators that are not part of the service: they are taken as
      interfaces ([Persistence], [PaymentGateway], [Clock]) and every
      theorem holds for all their implementations. *)

From Stdlib Require Import ZArith QArith Qround Qminmax Qabs.
From Stdlib Require Import String Ascii List Lia Bool DecimalString.
Import ListNotations.

Local Open Scope string_scope.
Local Open Scope Z_scope.

(* ================================================================== *)
(** ** Python string methods used by the service *)
(* ================================================================== *)

Module PyStr.

(** [c.isdigit()] on an ASCII character. *)
Definition is_digit (c : ascii) : bool :=
  let n := nat_of_ascii c in (48 <=? n)%nat && (n <=? 57)%nat.

(** The ASCII characters [str.strip()] removes: TAB, LF, VT, FF, CR,
    the four separators FS, GS, RS, US, and SPACE. *)
Definition is_space (c : ascii) : bool :=
  let n := nat_of_ascii c in
  ((9 <=? n)%nat && (n <=? 13)%nat) || ((28 <=? n)%nat && (n <=? 32)%nat).

Fixpoint all_digits (s : string) : bool :=
  match s with
  | EmptyString => true
  | String c t => is_digit c && all_digits t
  end.

(** [s.isdigit()]: at least one character and all of them digits. *)
Definition isdigit (s : string) : bool :=
  match s with
  | EmptyString => false
  | String _ _ => all_digits s
  end.

(** [len(s)]. *)
Definition len (s : string) : Z := Z.of_nat (String.length s).

(** Truth value of a string: [bool(s)]. *)
Definition truthy (s : string) : bool :=
  match s with EmptyString => false | String _ _ => true end.

Fixpoint lstrip (s : string) : string :=
  match s with
  | EmptyString => EmptyString
  | String c t => if is_space c then lstrip t else s
  end.

Fixpoint rstrip (s : string) : string :=
  match s with
  | EmptyString => EmptyString
  | String c t =>
      match rstrip t with
      | EmptyString => if is_space c then EmptyString else String c EmptyString
      | t' => String c t'
      end
  end.

(** [s.strip()]. *)
Definition strip (s : string) : string := rstrip (lstrip s).

(** [s.startswith(p)]. *)
Definition startswith (s p : string) : bool := String.prefix p s.

(** [str(n)] for an integer. *)
Definition of_int (n : Z) : string := NilZero.string_of_int (Z.to_int n).

(** The one-character string holding a double quote. *)
Definition dquote : string := String (ascii_of_nat 34) EmptyString.

(** A non-negative integer printed on at least [w] digits, as [%0wd]. *)
Fixpoint zero_pad (w : nat) (s : string) : string :=
  match w with
  | O => s
  | S w' => if (String.length s <=? w')%nat then zero_pad w' ("0" ++ s) else s
  end.

End PyStr.

(* ================================================================== *)
(** ** Calendar: the part of CPython's [datetime] the service relies on *)
(* ================================================================== *)

Record date := mkdate { year : Z; month : Z; day : Z }.

Record datetime := mkdatetime {
  dt_date : date;
  hour : Z; minute : Z; second : Z; microsecond : Z
}.

(** [dt.date()] *)
Definition date_of (dt : datetime) : date := dt_date dt.

Definition _is_leap (y : Z) : bool :=
  (y mod 4 =? 0) && (negb (y mod 100 =? 0) || (y mod 400 =? 0)).

Definition _DAYS_IN_MONTH (m : Z) : Z :=
  match m with
  | 1 => 31 | 2 => 28 | 3 => 31 | 4 => 30 | 5 => 31 | 6 => 30
  | 7 => 31 | 8 => 31 | 9 => 30 | 10 => 31 | 11 => 30 | 12 => 31
  | _ => -1
  end.

Definition _DAYS_BEFORE_MONTH (m : Z) : Z :=
  match m with
  | 1 => 0 | 2 => 31 | 3 => 59 | 4 => 90 | 5 => 120 | 6 => 151
  | 7 => 181 | 8 => 212 | 9 => 243 | 10 => 273 | 11 => 304 | 12 => 334
  | _ => -1
  end.

Definition _days_before_year (y : Z) : Z :=
  let y := y - 1 in y * 365 + y / 4 - y / 100 + y / 400.

Definition _days_in_month (y m : Z) : Z :=
  if (m =? 2) && _is_leap y then 29 else _DAYS_IN_MONTH m.

Definition _days_before_month (y m : Z) : Z :=
  _DAYS_BEFORE_MONTH m + (if (m >? 2) && _is_leap y then 1 else 0).

Definition _ymd2ord (y m d : Z) : Z :=
  _days_before_year y + _days_before_month y m + d.

(** [d.toordinal()]: 1 for 0001-01-01. *)
Definition toordinal (d : date) : Z := _ymd2ord (year d) (month d) (day d).

Definition _DI400Y : Z := 146097.
Definition _DI100Y : Z := 36524.
Definition _DI4Y : Z := 1461.

(** [date.fromordinal(n)], CPython's [_ord2ymd]. *)
Definition _ord2ymd (n : Z) : date :=
  let n := n - 1 in
  let n400 := n / _DI400Y in
  let n := n mod _DI400Y in
  let y := n400 * 400 + 1 in
  let n100 := n / _DI100Y in
  let n := n mod _DI100Y in
  let n4 := n / _DI4Y in
  let n := n mod _DI4Y in
  let n1 := n / 365 in
  let n := n mod 365 in
  let y := y + n100 * 100 + n4 * 4 + n1 in
  if (n1 =? 4) || (n100 =? 4) then mkdate (y - 1) 12 31
  else
    let leapyear := (n1 =? 3) && (negb (n4 =? 24) || (n100 =? 3)) in
    let m := Z.shiftr (n + 50) 5 in
    let preceding :=
      _DAYS_BEFORE_MONTH m + (if (m >? 2) && leapyear then 1 else 0) in
    if preceding >? n then
      let m := m - 1 in
      let preceding :=
        preceding
        - (_DAYS_IN_MONTH m + (if (m =? 2) && leapyear then 1 else 0)) in
      mkdate y m (n - preceding + 1)
    else mkdate y m (n - preceding + 1).

(** A date object as Python can hold one.  The calendar is taken unbounded
    above (CPython stops at year 9999). *)
Definition valid_date (d : date) : Prop :=
  1 <= year d /\ 1 <= month d <= 12 /\
  1 <= day d <= _days_in_month (year d) (month d).

Definition valid_dateb (d : date) : bool :=
  (1 <=? year d) && (1 <=? month d) && (month d <=? 12) &&
  (1 <=? day d) && (day d <=? _days_in_month (year d) (month d)).

(** Comparison of dates, as [date.__lt__]: lexicographic on
    (year, month, day). *)
Definition date_ltb (a b : date) : bool :=
  (year a <? year b)
  || ((year a =? year b)
      && ((month a <? month b)
          || ((month a =? month b) && (day a <? day b)))).

(** [(a - b).days] for two dates. *)
Definition date_sub_days (a b : date) : Z := toordinal a - toordinal b.

(** [dt + timedelta(days=n)]: the date moves by [n] days, the time of day
    is kept. *)
Definition datetime_add_days (dt : datetime) (n : Z) : datetime :=
  mkdatetime (_ord2ymd (toordinal (date_of dt) + n))
             (hour dt) (minute dt) (second dt) (microsecond dt).

(** [dt.strftime("%Y-%m-%d")] *)
Definition strftime_ymd (dt : datetime) : string :=
  let d := date_of dt in
  PyStr.zero_pad 4 (PyStr.of_int (year d)) ++ "-" ++
  PyStr.zero_pad 2 (PyStr.of_int (month d)) ++ "-" ++
  PyStr.zero_pad 2 (PyStr.of_int (day d)).

(* ================================================================== *)
(** ** Money and the fee calculator *)
(* ================================================================== *)

(** Rounding of an exact value to the nearest integer, ties to even: what
    the [.2f] format does to the scaled value. *)
Definition round_half_even (q : Q) : Z :=
  let fl := Qfloor q in
  match (q - inject_Z fl ?= 1 # 2)%Q with
  | Lt => fl
  | Gt => fl + 1
  | Eq => if Z.even fl then fl else fl + 1
  end.

(** The amount in hundredths after rounding to two decimals. *)
Definition cents (amount : Q) : Z := round_half_even (amount * 100).

(** [_monetize]: [float(f"{float(amount):.2f}")].  The argument is a
    number by its type, so the fallback to 0.0 is never taken. *)
Definition _monetize (amount : Q) : Q := Qred (cents amount # 100).

(** [_compute_fee_from_due_and_end] *)
Definition _compute_fee_from_due_and_end
    (due_dt end_dt : option datetime) : Q * Z :=
  match due_dt, end_dt with
  | Some due_dt, Some end_dt =>
      let days_overdue := date_sub_days (date_of end_dt) (date_of due_dt) in
      if days_overdue <=? 0 then (0%Q, 0)
      else
        let first_seven := Z.min days_overdue 7 in
        let remainder := Z.max (days_overdue - 7) 0 in
        let fee := (inject_Z first_seven * (1 # 2) + inject_Z remainder * 1)%Q in
        let fee := Qmin fee 15 in
        (_monetize fee, days_overdue)
  | _, _ => (0%Q, 0)
  end.

(** The fee formula in the words of the specification. *)
Definition fee_formula (days : Z) : Q :=
  Qmin ((1 # 2) * inject_Z (Z.min days 7) + 1 * inject_Z (Z.max (days - 7) 0)) 15.

(** [f"{x:.2f}"] *)
Definition format_2f (x : Q) : string :=
  let c := Z.abs (cents x) in
  (if Qle_bool 0 x then EmptyString else "-") ++
  PyStr.of_int (c / 100) ++ "." ++ PyStr.zero_pad 2 (PyStr.of_int (c mod 100)).

(* ================================================================== *)
(** ** Data model *)
(* ================================================================== *)

(** What a call into a collaborator gives back: the value it returns, or
    the exception (an instance of [Exception]) it raises, kept as the text
    of [str(e)]. *)
Inductive outcome (A : Type) : Type :=
| Returned (a : A)
| Raised (e : string).
Arguments Returned {A} a.
Arguments Raised {A} e.

(** A value read from a row: the service accepts date columns as
    [datetime] objects or as text. *)
Inductive dbvalue : Type :=
| VNone
| VInt (n : Z)
| VStr (s : string)
| VDatetime (d : datetime).

(** Truth value of a row value, as in [if row["return_date"]]. *)
Definition value_truthy (v : dbvalue) : bool :=
  match v with
  | VNone => false
  | VInt n => negb (n =? 0)
  | VStr s => PyStr.truthy s
  | VDatetime _ => true
  end.

(** A row of the [books] table. *)
Record book := mkbook {
  book_id : Z;
  book_title : string;
  book_author : string;
  book_isbn : string;
  total_copies : Z;
  available_copies : Z
}.

(** A row of [get_patron_borrowed_books]: an active borrow record joined
    with the title of its book. *)
Record borrowed_book := mkborrowed {
  bb_book_id : Z;
  bb_title : string;
  bb_due_date : dbvalue
}.

(** A row of the history query of the status report. *)
Record history_row := mkhistory_row {
  hr_book_id : Z;
  hr_title : string;
  hr_borrow_date : dbvalue;
  hr_due_date : dbvalue;
  hr_return_date : dbvalue
}.

(** The dictionary returned by [calculate_late_fee_for_book].  A key that
    some dictionaries lack is an [option] field, [None] when the key is
    not there. *)
Record fee_info := mkfee_info {
  fi_fee_amount : option Q;
  fi_days_overdue : Z;
  fi_due_date : option (option string);
  fi_status : string
}.

(** An entry of [report['current_borrows']]. *)
Record current_borrow := mkcurrent_borrow {
  cb_book_id : Z;
  cb_title : string;
  cb_due_date : option string;
  cb_days_overdue : Z;
  cb_late_fee : Q
}.

(** An entry of [report['history']]. *)
Record history_entry := mkhistory_entry {
  he_book_id : Z;
  he_title : string;
  he_borrow_date : option string;
  he_due_date : option string;
  he_return_date : option string
}.

(** The dictionary returned by [get_patron_status_report]. *)
Record report := mkreport {
  r_patron_id : string;
  r_current_borrows : list current_borrow;
  r_current_borrow_count : Z;
  r_total_late_fees : Q;
  r_history : list history_entry;
  r_status : string
}.

(* ================================================================== *)
(** ** Collaborators *)
(* ================================================================== *)

(** The functions the service imports from the [database] module, over an
    abstract database state.  Queries read the state, commands return the
    success flag and the new state. *)
Class Persistence (DB : Type) : Type := {
  get_book_by_id : Z -> DB -> option book;
  get_book_by_isbn : string -> DB -> option book;
  get_patron_borrow_count : string -> DB -> Z;
  get_patron_borrowed_books : string -> DB -> option (list borrowed_book);
  insert_book : string -> string -> string -> Z -> Z -> DB -> bool * DB;
  insert_borrow_record : string -> Z -> datetime -> datetime -> DB -> bool * DB;
  update_book_availability : Z -> Z -> DB -> bool * DB;
  update_borrow_record_return_date : string -> Z -> datetime -> DB -> bool * DB;
  (** [get_db_connection()], the history [SELECT], [fetchall()] and
      [close()] of the status report, as one call: the rows, or the
      exception one of the four raised. *)
  fetch_borrow_history : string -> DB -> outcome (list history_row)
}.

(** The wall clock behind [datetime.now()]: every reading moves it on. *)
Class Clock (C : Type) : Type := {
  datetime_now : C -> datetime * C
}.

(** The [PaymentGateway] class of [payment_service]: its constructor and
    the two methods the service calls, over the state of a gateway
    object. *)
Class PaymentGateway (G : Type) : Type := {
  PaymentGateway_new : G;
  process_payment : string -> Q -> string -> G -> outcome (bool * string * string) * G;
  refund_payment : string -> Q -> G -> outcome (bool * string) * G
}.

(** [datetime.strptime] and [datetime.fromisoformat]; [None] stands for
    the exception they raise on text they do not accept. *)
Class DatetimeParsing : Type := {
  strptime : string -> string -> option datetime;
  fromisoformat : string -> option datetime
}.

(* ================================================================== *)
(** ** The state the service runs in *)
(* ================================================================== *)

Record world (DB C : Type) : Type := mkworld { w_db : DB; w_clock : C }.
Arguments mkworld {DB C} w_db w_clock.
Arguments w_db {DB C} w.
Arguments w_clock {DB C} w.

(** Computations of the service: they read and change the database and
    read the clock. *)
Definition M (DB C A : Type) : Type := world DB C -> A * world DB C.

Definition ret {DB C A} (a : A) : M DB C A := fun w => (a, w).

Definition bind {DB C A B} (m : M DB C A) (k : A -> M DB C B) : M DB C B :=
  fun w => let (a, w') := m w in k a w'.

Declare Scope service_scope.
Delimit Scope service_scope with service.
Notation "x <- m ;; k" := (bind m (fun x => k))
  (at level 61, m at next level, right associativity) : service_scope.
Notation "' pat <- m ;; k" := (bind m (fun x => let 'pat := x in k))
  (at level 61, pat pattern, m at next level, right associativity) : service_scope.

(** A query of the database. *)
Definition query {DB C A} (q : DB -> A) : M DB C A :=
  fun w => (q (w_db w), w).

(** A command on the database. *)
Definition command {DB C} (c : DB -> bool * DB) : M DB C bool :=
  fun w => let (ok, db') := c (w_db w) in (ok, mkworld db' (w_clock w)).

(** [datetime.now()] *)
Definition now {DB C} `{Clock C} : M DB C datetime :=
  fun w => let (t, c') := datetime_now (w_clock w) in (t, mkworld (w_db w) c').

(* ================================================================== *)
(** ** The service: [services/library_service.py] *)
(* ================================================================== *)

Section Service.

Context {DB C G : Type}.
Context `{Persistence DB} `{Clock C} `{PaymentGateway G} `{DatetimeParsing}.

Local Open Scope service_scope.

(** The loop of [_parse_dt] over the [strptime] formats. *)
Fixpoint _parse_dt_formats (val : string) (fmts : list string) : option datetime :=
  match fmts with
  | [] => None
  | fmt :: rest =>
      match strptime val fmt with
      | Some d => Some d
      | None => _parse_dt_formats val rest
      end
  end.

Definition _parse_dt (val : dbvalue) : option datetime :=
  match val with
  | VDatetime d => Some d
  | VStr s =>
      match _parse_dt_formats s
              ["%Y-%m-%d %H:%M:%S"; "%Y-%m-%dT%H:%M:%S"; "%Y-%m-%d"] with
      | Some d => Some d
      | None => fromisoformat s
      end
  | _ => None
  end.

(** The two lines [due_dt = r.get('due_date')] and
    [if not isinstance(due_dt, datetime): due_dt = _parse_dt(due_dt)]. *)
Definition due_datetime (v : dbvalue) : option datetime :=
  match v with
  | VDatetime d => Some d
  | _ => _parse_dt v
  end.

(** The patron ID check the four entry points share, as each of them
    writes it: [not patron_id or not patron_id.isdigit() or
    len(patron_id) != 6]. *)
Definition patron_id_rejected (patron_id : string) : bool :=
  negb (PyStr.truthy patron_id) || negb (PyStr.isdigit patron_id)
  || negb (PyStr.len patron_id =? 6).

Definition add_book_to_catalog
    (title author isbn : string) (total_copies : Z) : M DB C (bool * string) :=
  if negb (PyStr.truthy title) || negb (PyStr.truthy (PyStr.strip title)) then
    ret (false, "Title is required.")
  else if PyStr.len (PyStr.strip title) >? 200 then
    ret (false, "Title must be less than 200 characters.")
  else if negb (PyStr.truthy author) || negb (PyStr.truthy (PyStr.strip author)) then
    ret (false, "Author is required.")
  else if PyStr.len (PyStr.strip author) >? 100 then
    ret (false, "Author must be less than 100 characters.")
  else if negb (PyStr.len isbn =? 13) then
    ret (false, "ISBN must be exactly 13 digits.")
  else if total_copies <=? 0 then
    ret (false, "Total copies must be a positive integer.")
  else
    existing <- query (get_book_by_isbn isbn) ;;
    match existing with
    | Some _ => ret (false, "A book with this ISBN already exists.")
    | None =>
        success <- command (insert_book (PyStr.strip title) (PyStr.strip author)
                                        isbn total_copies total_copies) ;;
        if success then
          ret (true, "Book " ++ PyStr.dquote ++ PyStr.strip title ++ PyStr.dquote
                     ++ " has been successfully added to the catalog.")
        else
          ret (false, "Database error occurred while adding the book.")
    end.

Definition borrow_book_by_patron
    (patron_id : string) (book_id : Z) : M DB C (bool * string) :=
  if patron_id_rejected patron_id then
    ret (false, "Invalid patron ID. Must be exactly 6 digits.")
  else
    book <- query (get_book_by_id book_id) ;;
    match book with
    | None => ret (false, "Book not found.")
    | Some book =>
        if available_copies book <=? 0 then
          ret (false, "This book is currently not available.")
        else
          current_borrowed <- query (get_patron_borrow_count patron_id) ;;
          if current_borrowed >=? 5 then
            ret (false, "You have reached the maximum borrowing limit of 5 books.")
          else
            borrow_date <- now ;;
            let due_date := datetime_add_days borrow_date 14 in
            borrow_success <-
              command (insert_borrow_record patron_id book_id borrow_date due_date) ;;
            if negb borrow_success then
              ret (false, "Database error occurred while creating borrow record.")
            else
              availability_success <- command (update_book_availability book_id (-1)) ;;
              if negb availability_success then
                ret (false, "Database error occurred while updating book availability.")
              else
                ret (true, "Successfully borrowed " ++ PyStr.dquote ++ book_title book
                           ++ PyStr.dquote ++ ". Due date: "
                           ++ strftime_ymd due_date ++ ".")
    end.

(** [next((r for r in current if int(r.get('book_id')) == int(book_id)), None)] *)
Definition find_active (current : list borrowed_book) (book_id : Z)
  : option borrowed_book :=
  find (fun r => bb_book_id r =? book_id) current.

(** [get_patron_borrowed_books(patron_id) or []] *)
Definition or_empty {A} (rows : option (list A)) : list A :=
  match rows with Some l => l | None => [] end.

Definition return_book_by_patron
    (patron_id : string) (book_id : Z) : M DB C (bool * string) :=
  if patron_id_rejected patron_id then
    ret (false, "Invalid patron ID. Must be exactly 6 digits.")
  else
    book <- query (get_book_by_id book_id) ;;
    match book with
    | None => ret (false, "Book not found.")
    | Some book =>
        current <- query (get_patron_borrowed_books patron_id) ;;
        match find_active (or_empty current) book_id with
        | None => ret (false, "No active borrow record found for this patron and book.")
        | Some active =>
            let due_dt := due_datetime (bb_due_date active) in
            end_dt <- now ;;
            let '(fee_amt, days_overdue) :=
              _compute_fee_from_due_and_end due_dt (Some end_dt) in
            ok_return <-
              command (update_borrow_record_return_date patron_id book_id end_dt) ;;
            if negb ok_return then
              ret (false, "Database error while recording the return.")
            else
              ok_avail <- command (update_book_availability book_id 1) ;;
              if negb ok_avail then
                ret (false, "Database error while updating book availability.")
              else if negb (Qle_bool fee_amt 0) then
                ret (true, "Returned " ++ PyStr.dquote ++ book_title book ++ PyStr.dquote
                           ++ ". Late fee: $" ++ format_2f fee_amt
                           ++ " (overdue by " ++ PyStr.of_int days_overdue ++ " day(s)).")
              else
                ret (true, "Returned " ++ PyStr.dquote ++ book_title book ++ PyStr.dquote
                           ++ " on time. No late fee.")
        end
    end.

Definition calculate_late_fee_for_book
    (patron_id : string) (book_id : Z) : M DB C fee_info :=
  current <- query (get_patron_borrowed_books patron_id) ;;
  match find_active (or_empty current) book_id with
  | None => ret (mkfee_info (Some 0%Q) 0 None "not_found")
  | Some active =>
      let due_dt := due_datetime (bb_due_date active) in
      t <- now ;;
      let '(fee_amt, days_overdue) :=
        _compute_fee_from_due_and_end due_dt (Some t) in
      let status := if days_overdue >? 0 then "ok" else "not_overdue" in
      ret (mkfee_info (Some (_monetize fee_amt)) days_overdue
                      (Some (option_map strftime_ymd due_dt)) status)
  end.

(** The loop of [get_patron_status_report] over the current borrows:
    it carries [total_fees] and [report['current_borrows']]. *)
Fixpoint current_borrows_loop (current : list borrowed_book)
    (total_fees : Q) (current_borrows : list current_borrow)
  : M DB C (Q * list current_borrow) :=
  match current with
  | [] => ret (total_fees, current_borrows)
  | r :: rest =>
      let due_dt := due_datetime (bb_due_date r) in
      t <- now ;;
      let '(fee_amt, days_overdue) :=
        _compute_fee_from_due_and_end due_dt (Some t) in
      current_borrows_loop rest (total_fees + fee_amt)%Q
        (current_borrows ++
           [mkcurrent_borrow (bb_book_id r) (bb_title r)
              (option_map strftime_ymd due_dt) days_overdue (_monetize fee_amt)])
  end.

(** The body of the history loop for one row. *)
Definition history_of_row (row : history_row) : history_entry :=
  let bd := _parse_dt (hr_borrow_date row) in
  let dd := _parse_dt (hr_due_date row) in
  let rd := if value_truthy (hr_return_date row)
            then _parse_dt (hr_return_date row) else None in
  mkhistory_entry (hr_book_id row) (hr_title row)
    (option_map strftime_ymd bd) (option_map strftime_ymd dd)
    (option_map strftime_ymd rd).

Definition get_patron_status_report (patron_id : string) : M DB C report :=
  if patron_id_rejected patron_id then
    ret (mkreport patron_id [] 0 0%Q [] "invalid_patron_id")
  else
    current <- query (get_patron_borrowed_books patron_id) ;;
    '(total_fees, current_borrows) <-
      current_borrows_loop (or_empty current) 0%Q [] ;;
    rows <- query (fetch_borrow_history patron_id) ;;
    let history :=
      match rows with
      | Returned rows => map history_of_row rows
      | Raised _ => []
      end in
    ret (mkreport patron_id current_borrows
                  (Z.of_nat (length current_borrows))
                  (_monetize total_fees) history "ok").

(** The result of [pay_late_fees] is paired with the gateway object as
    the call leaves it: the one passed in, or the default one once it
    has been constructed. *)
Definition pay_late_fees
    (patron_id : string) (book_id : Z) (payment_gateway : option G)
  : M DB C ((bool * string * option string) * option G) :=
  if patron_id_rejected patron_id then
    ret ((false, "Invalid patron ID. Must be exactly 6 digits.", None), payment_gateway)
  else
    fee_info <- calculate_late_fee_for_book patron_id book_id ;;
    match fi_fee_amount fee_info with
    | None => ret ((false, "Unable to calculate late fees.", None), payment_gateway)
    | Some fee_amount =>
        if Qle_bool fee_amount 0 then
          ret ((false, "No late fees to pay for this book.", None), payment_gateway)
        else
          book <- query (get_book_by_id book_id) ;;
          match book with
          | None => ret ((false, "Book not found.", None), payment_gateway)
          | Some book =>
              let gateway :=
                match payment_gateway with
                | None => PaymentGateway_new
                | Some g => g
                end in
              let '(answer, gateway) :=
                process_payment patron_id fee_amount
                  ("Late fees for '" ++ book_title book ++ "'") gateway in
              match answer with
              | Returned (success, transaction_id, message) =>
                  if success : bool then
                    ret ((true, "Payment successful! " ++ message,
                          Some transaction_id), Some gateway)
                  else
                    ret ((false, "Payment failed: " ++ message, None), Some gateway)
              | Raised e =>
                  ret ((false, "Payment processing error: " ++ e, None), Some gateway)
              end
          end
    end.

End Service.

(** [refund_late_fee_payment] touches neither the database nor the clock:
    its result is paired with the gateway object as the call leaves it. *)
Definition refund_late_fee_payment {G : Type} `{PaymentGateway G}
    (transaction_id : string) (amount : Q) (payment_gateway : option G)
  : (bool * string) * option G :=
  if negb (PyStr.truthy transaction_id)
     || negb (PyStr.startswith transaction_id "txn_") then
    ((false, "Invalid transaction ID."), payment_gateway)
  else if Qle_bool amount 0 then
    ((false, "Refund amount must be greater than 0."), payment_gateway)
  else if negb (Qle_bool amount 15) then
    ((false, "Refund amount exceeds maximum late fee."), payment_gateway)
  else
    let gateway :=
      match payment_gateway with
      | None => PaymentGateway_new
      | Some g => g
      end in
    let '(answer, gateway) := refund_payment transaction_id amount gateway in
    match answer with
    | Returned (success, message) =>
        if success : bool then ((true, message), Some gateway)
        else ((false, "Refund failed: " ++ message), Some gateway)
    | Raised e => ((false, "Refund processing error: " ++ e), Some gateway)
    end.

(* ================================================================== *)
(** ** Catalog display and search *)
(* ================================================================== *)

(** [s.lower()] on ASCII text. *)
Definition lower_char (c : ascii) : ascii :=
  let n := nat_of_ascii c in
  if (65 <=? n)%nat && (n <=? 90)%nat then ascii_of_nat (n + 32) else c.

Fixpoint str_lower (s : string) : string :=
  match s with
  | EmptyString => EmptyString
  | String c t => String (lower_char c) (str_lower t)
  end.

(** [sub in s] for two texts. *)
Fixpoint str_contains (sub s : string) : bool :=
  String.prefix sub s
  || match s with
     | EmptyString => false
     | String _ t => str_contains sub t
     end.

(** [re.sub] of every match of [\D] by the empty text: the digits of a
    text, in order. *)
Fixpoint digits_only (s : string) : string :=
  match s with
  | EmptyString => EmptyString
  | String c t => if PyStr.is_digit c then String c (digits_only t) else digits_only t
  end.

(** A dictionary of [get_all_books()].  The service reads every key with
    [.get], so a key may be absent: [None] stands for an absent key or a
    [None] value, which the service does not tell apart. *)
Record catalog_row := mkrow {
  row_id : option Z;
  row_title : option string;
  row_author : option string;
  row_isbn : option string;
  row_available_copies : option Z;
  row_total_copies : option Z
}.

(** The dictionary built for the catalog page and for search results. *)
Record display_book := mkdisplay {
  d_id : option Z;
  d_title : option string;
  d_author : option string;
  d_isbn : option string;
  d_available_copies : Z;
  d_total_copies : Z;
  d_availability : string;
  d_can_borrow : bool
}.

(** [get_all_books] of the [database] module. *)
Class Catalog (DB : Type) : Type := {
  get_all_books : DB -> option (list catalog_row)
}.

(** [int(b.get(key, 0) or 0)] *)
Definition int_or_zero (v : option Z) : Z :=
  match v with Some n => n | None => 0 end.

(** [str(b.get(key, '') or '')] *)
Definition str_or_empty (v : option string) : string :=
  match v with Some s => s | None => EmptyString end.

(** The dictionary appended to [formatted], in both functions. *)
Definition format_book (b : catalog_row) : display_book :=
  let available := int_or_zero (row_available_copies b) in
  let total := int_or_zero (row_total_copies b) in
  mkdisplay (row_id b) (row_title b) (row_author b) (row_isbn b)
            available total
            (PyStr.of_int available ++ " / " ++ PyStr.of_int total)
            (available >? 0).

(** The test of the [isbn] branch: [isbn == norm_term and isbn].  For an
    absent ISBN the source takes the digits of [str(None)], which has
    none, as the empty text has none. *)
Definition isbn_matches (norm_term : string) (b : catalog_row) : bool :=
  let isbn := digits_only (str_or_empty (row_isbn b)) in
  String.eqb isbn norm_term && PyStr.truthy isbn.

(** The test of the [title] and [author] branch. *)
Definition field_matches (stype low_term : string) (b : catalog_row) : bool :=
  let val :=
    str_lower (str_or_empty (if String.eqb stype "title"
                             then row_title b else row_author b)) in
  str_contains low_term val.

(** The test of the last branch. *)
Definition title_or_author_matches (low_term : string) (b : catalog_row) : bool :=
  let title := str_lower (str_or_empty (row_title b)) in
  let author := str_lower (str_or_empty (row_author b)) in
  str_contains low_term title || str_contains low_term author.

Section CatalogService.

Context {DB C : Type} `{Catalog DB}.

Local Open Scope service_scope.

Definition get_catalog_display : M DB C (list display_book) :=
  books <- query get_all_books ;;
  ret (map format_book (or_empty books)).

Definition search_books_in_catalog
    (search_term search_type : option string) : M DB C (list display_book) :=
  match search_term with
  | None => ret []
  | Some search_term =>
      let term := PyStr.strip search_term in
      if negb (PyStr.truthy term) then ret []
      else
        let stype := str_lower (PyStr.strip (str_or_empty search_type)) in
        books <- query get_all_books ;;
        let books := or_empty books in
        let results :=
          if String.eqb stype "isbn" then
            let norm_term := digits_only term in
            filter (isbn_matches norm_term) books
          else if String.eqb stype "title" || String.eqb stype "author" then
            let low_term := str_lower term in
            filter (field_matches stype low_term) books
          else
            let low_term := str_lower term in
            filter (title_or_author_matches low_term) books in
        ret (map format_book results)
  end.

End CatalogService.

(* ================================================================== *)
(** ** The status page: [routes/patron_routes.py] *)
(* ================================================================== *)

(** What the view function hands to Flask: the messages it flashes, each
    with its category, and the template with its two arguments. *)
Record rendered := mkrendered {
  flashed : list (string * string);
  template : string;
  ctx_patron_id : string;
  ctx_report : option report
}.

Section PatronRoutes.

Context {DB C : Type}.
Context `{Persistence DB} `{Clock C} `{DatetimeParsing}.

Local Open Scope service_scope.

(** [status]; its argument is the [patron_id] parameter of the query
    string, [None] when the request has none. *)
Definition status (patron_id_arg : option string) : M DB C rendered :=
  let patron_id := PyStr.strip (str_or_empty patron_id_arg) in
  if PyStr.truthy patron_id then
    report <- get_patron_status_report patron_id ;;
    if String.eqb (r_status report) "invalid_patron_id" then
      ret (mkrendered [("Invalid patron ID. Must be exactly 6 digits.", "error")]
                      "patron_status.html" patron_id (Some report))
    else
      ret (mkrendered [] "patron_status.html" patron_id (Some report))
  else
    ret (mkrendered [] "patron_status.html" patron_id None).

End PatronRoutes.

(* ================================================================== *)
(** ** Reference collaborators

    Concrete implementations of the four interfaces, used to run the
    service on examples. *)
(* ================================================================== *)

Module InMemory.

(** A row of the [borrow_records] table. *)
Record borrow_record := mkrecord {
  br_patron_id : string;
  br_book_id : Z;
  br_borrow_date : datetime;
  br_due_date : datetime;
  br_return_date : option datetime
}.

(** The two tables, and whether the raw connection of the history query
    can be opened. *)
Record memdb := mkmemdb {
  db_books : list book;
  db_records : list borrow_record;
  db_reachable : bool
}.

Definition is_active (r : borrow_record) : bool :=
  match br_return_date r with None => true | Some _ => false end.

Definition active_of (patron_id : string) (db : memdb) : list borrow_record :=
  filter (fun r => String.eqb (br_patron_id r) patron_id && is_active r) (db_records db).

(** Modelled from the spec: [getBookById(id)] of the persistence
    collaborator, whose module [database] is not among the sources. *)
Definition mem_get_book_by_id (id : Z) (db : memdb) : option book :=
  find (fun b => book_id b =? id) (db_books db).

(** Modelled from the spec: [getBookByIsbn(isbn)] of the persistence
    collaborator. *)
Definition mem_get_book_by_isbn (isbn : string) (db : memdb) : option book :=
  find (fun b => String.eqb (book_isbn b) isbn) (db_books db).

(** Modelled from the spec: [getPatronBorrowCount(patronId)], the number
    of active records of the patron. *)
Definition mem_get_patron_borrow_count (patron_id : string) (db : memdb) : Z :=
  Z.of_nat (length (active_of patron_id db)).

(** Modelled from the spec: [getPatronBorrowedBooks(patronId)], active
    records only, each with the title of its book. *)
Definition mem_get_patron_borrowed_books (patron_id : string) (db : memdb)
  : option (list borrowed_book) :=
  Some (flat_map
          (fun r =>
             match mem_get_book_by_id (br_book_id r) db with
             | Some b => [mkborrowed (br_book_id r) (book_title b)
                                     (VDatetime (br_due_date r))]
             | None => []
             end)
          (active_of patron_id db)).

(** Modelled from the spec: [insertBook(title,author,isbn,total,available)];
    books are never deleted, so the next identifier is the row count
    plus one. *)
Definition mem_insert_book (title author isbn : string) (total available : Z)
    (db : memdb) : bool * memdb :=
  (true,
   mkmemdb (db_books db ++
              [mkbook (Z.of_nat (length (db_books db)) + 1)
                      title author isbn total available])
           (db_records db) (db_reachable db)).

(** Modelled from the spec: [insertBorrowRecord(patronId, bookId,
    borrowDate, dueDate)]; the new record is active. *)
Definition mem_insert_borrow_record (patron_id : string) (id : Z)
    (borrow_date due_date : datetime) (db : memdb) : bool * memdb :=
  (true,
   mkmemdb (db_books db)
           (db_records db ++ [mkrecord patron_id id borrow_date due_date None])
           (db_reachable db)).

(** Modelled from the spec: [updateBookAvailability(id, delta)]. *)
Definition mem_update_book_availability (id delta : Z) (db : memdb)
  : bool * memdb :=
  (true,
   mkmemdb (map (fun b =>
                   if book_id b =? id
                   then mkbook (book_id b) (book_title b) (book_author b)
                               (book_isbn b) (total_copies b)
                               (available_copies b + delta)
                   else b)
                (db_books db))
           (db_records db) (db_reachable db)).

(** Modelled from the spec: [updateBorrowRecordReturnDate(patronId,
    bookId, returnDate)], on the active records of the pair. *)
Definition mem_update_borrow_record_return_date (patron_id : string) (id : Z)
    (return_date : datetime) (db : memdb) : bool * memdb :=
  (true,
   mkmemdb (db_books db)
           (map (fun r =>
                   if String.eqb (br_patron_id r) patron_id
                      && (br_book_id r =? id) && is_active r
                   then mkrecord (br_patron_id r) (br_book_id r)
                                 (br_borrow_date r) (br_due_date r)
                                 (Some return_date)
                   else r)
                (db_records db))
           (db_reachable db)).

(** A total order key on timestamps, in microseconds. *)
Definition datetime_key (t : datetime) : Z :=
  (((toordinal (date_of t) * 24 + hour t) * 60 + minute t) * 60 + second t)
  * 1000000 + microsecond t.

Fixpoint insert_newest_first (r : borrow_record) (l : list borrow_record)
  : list borrow_record :=
  match l with
  | [] => [r]
  | x :: rest =>
      if datetime_key (br_borrow_date x) <? datetime_key (br_borrow_date r)
      then r :: l
      else x :: insert_newest_first r rest
  end.

Definition newest_first (l : list borrow_record) : list borrow_record :=
  fold_right insert_newest_first [] l.

(** Modelled from the spec: the raw query path returning the full
    history of the patron (book id, title, borrow, due and return dates)
    by borrow date descending; it raises when the data source is
    unreachable. *)
Definition mem_fetch_borrow_history (patron_id : string) (db : memdb)
  : outcome (list history_row) :=
  if db_reachable db then
    Returned
      (flat_map
         (fun r =>
            match mem_get_book_by_id (br_book_id r) db with
            | Some b =>
                [mkhistory_row (br_book_id r) (book_title b)
                   (VDatetime (br_borrow_date r)) (VDatetime (br_due_date r))
                   (match br_return_date r with
                    | Some t => VDatetime t
                    | None => VNone
                    end)]
            | None => []
            end)
         (newest_first
            (filter (fun r => String.eqb (br_patron_id r) patron_id) (db_records db))))
  else Raised "db down".

#[export] Instance mem_persistence : Persistence memdb := {
  get_book_by_id := mem_get_book_by_id;
  get_book_by_isbn := mem_get_book_by_isbn;
  get_patron_borrow_count := mem_get_patron_borrow_count;
  get_patron_borrowed_books := mem_get_patron_borrowed_books;
  insert_book := mem_insert_book;
  insert_borrow_record := mem_insert_borrow_record;
  update_book_availability := mem_update_book_availability;
  update_borrow_record_return_date := mem_update_borrow_record_return_date;
  fetch_borrow_history := mem_fetch_borrow_history
}.

(** A clock that shows the same instant at every reading. *)
#[export] Instance frozen_clock : Clock datetime := {
  datetime_now := fun t => (t, t)
}.

(** A call received by a mock gateway. *)
Inductive gateway_call : Type :=
| ProcessPayment (patron_id : string) (amount : Q) (description : string)
| RefundPayment (transaction_id : string) (amount : Q).

(** A gateway in the manner of [Mock(spec=PaymentGateway)]: it answers
    every call with a configured return value or exception and records
    the calls it receives. *)
Record mock_gateway := mkmock {
  process_payment_answer : outcome (bool * string * string);
  refund_payment_answer : outcome (bool * string);
  calls : list gateway_call
}.

#[export] Instance mock_payment_gateway : PaymentGateway mock_gateway := {
  PaymentGateway_new :=
    mkmock (Returned (true, "txn_auto", "Approved")) (Returned (true, "Refund OK")) [];
  process_payment := fun patron_id amount description g =>
    (process_payment_answer g,
     mkmock (process_payment_answer g) (refund_payment_answer g)
            (calls g ++ [ProcessPayment patron_id amount description]));
  refund_payment := fun transaction_id amount g =>
    (refund_payment_answer g,
     mkmock (process_payment_answer g) (refund_payment_answer g)
            (calls g ++ [RefundPayment transaction_id amount]))
}.

(** Reading of [n] decimal digits at the head of a text. *)
Fixpoint read_digits (n : nat) (acc : Z) (s : string) : option (Z * string) :=
  match n with
  | O => Some (acc, s)
  | S n' =>
      match s with
      | String c rest =>
          if PyStr.is_digit c
          then read_digits n' (10 * acc + Z.of_nat (nat_of_ascii c) - 48) rest
          else None
      | EmptyString => None
      end
  end.

Definition set_field (directive : ascii) (v : Z) (t : datetime) : option datetime :=
  let d := date_of t in
  if Ascii.eqb directive "Y" then
    Some (mkdatetime (mkdate v (month d) (day d)) (hour t) (minute t) (second t) 0)
  else if Ascii.eqb directive "m" then
    Some (mkdatetime (mkdate (year d) v (day d)) (hour t) (minute t) (second t) 0)
  else if Ascii.eqb directive "d" then
    Some (mkdatetime (mkdate (year d) (month d) v) (hour t) (minute t) (second t) 0)
  else if Ascii.eqb directive "H" then Some (mkdatetime d v (minute t) (second t) 0)
  else if Ascii.eqb directive "M" then Some (mkdatetime d (hour t) v (second t) 0)
  else if Ascii.eqb directive "S" then Some (mkdatetime d (hour t) (minute t) v 0)
  else None.

(** Matching of a text against a format of fixed-width numeric
    directives and literal characters. *)
Fixpoint scan (fmt s : string) (t : datetime) : option datetime :=
  match fmt with
  | EmptyString => match s with EmptyString => Some t | String _ _ => None end
  | String c fmt' =>
      if Ascii.eqb c "%" then
        match fmt' with
        | String directive fmt'' =>
            match read_digits (if Ascii.eqb directive "Y" then 4 else 2) 0 s with
            | Some (v, rest) =>
                match set_field directive v t with
                | Some t' => scan fmt'' rest t'
                | None => None
                end
            | None => None
            end
        | EmptyString => None
        end
      else
        match s with
        | String c' rest => if Ascii.eqb c c' then scan fmt' rest t else None
        | EmptyString => None
        end
  end.

Definition in_range (t : datetime) : bool :=
  valid_dateb (date_of t)
  && (0 <=? hour t) && (hour t <? 24) && (0 <=? minute t) && (minute t <? 60)
  && (0 <=? second t) && (second t <? 60).

(** [strptime] on zero-padded text. *)
Definition fixed_strptime (s fmt : string) : option datetime :=
  match scan fmt s (mkdatetime (mkdate 1900 1 1) 0 0 0 0) with
  | Some t => if in_range t then Some t else None
  | None => None
  end.

(** The texts [fromisoformat] takes and the three formats of [_parse_dt]
    do not: a date with hours and minutes only. *)
#[export] Instance fixed_width_parsing : DatetimeParsing := {
  strptime := fixed_strptime;
  fromisoformat := fun s =>
    match fixed_strptime s "%Y-%m-%d %H:%M" with
    | Some t => Some t
    | None => fixed_strptime s "%Y-%m-%dT%H:%M"
    end
}.

End InMemory.

(* ================================================================== *)
(** ** Notions used by the statements *)
(* ================================================================== *)

(** The text is ASCII.  On ASCII text [PyStr.isdigit], [PyStr.len],
    [PyStr.strip], [str_lower] and [digits_only] are the methods of
    Python's [str] and the substitution of [re]; on other text Python
    goes by the Unicode tables (a superscript two is a digit for
    [isdigit], a no-break space is stripped), which are not modelled.  A
    statement whose conclusion depends on these functions takes the
    texts it tests as ASCII. *)
Fixpoint is_ascii (s : string) : bool :=
  match s with
  | EmptyString => true
  | String c t => (nat_of_ascii c <? 128)%nat && is_ascii t
  end.

(** A text of exactly six decimal digits. *)
Definition six_digits (s : string) : Prop :=
  String.length s = 6%nat /\ PyStr.all_digits s = true.

(** The extra day of a leap year. *)
Definition leap_day (y : Z) : Z := if _is_leap y then 1 else 0.

(** The fee counted in half dollars. *)
Definition half_dollars (days : Z) : Z :=
  Z.min (Z.min days 7 + 2 * Z.max (days - 7) 0) 30.

(** The month and day of the [n]-th day (from 0) of a year, as the second
    half of [_ord2ymd] finds them. *)
Definition month_day (n : Z) (leapyear : bool) : Z * Z :=
  let m := Z.shiftr (n + 50) 5 in
  let preceding :=
    _DAYS_BEFORE_MONTH m + (if (m >? 2) && leapyear then 1 else 0) in
  if preceding >? n then
    let m := m - 1 in
    let preceding :=
      preceding
      - (_DAYS_IN_MONTH m + (if (m =? 2) && leapyear then 1 else 0)) in
    (m, n - preceding + 1)
  else (m, n - preceding + 1).

Definition month_day_ok (leapyear : bool) (n : Z) : bool :=
  let '(m, d) := month_day n leapyear in
  (1 <=? m) && (m <=? 12) && (1 <=? d)
  && (d <=? (if (m =? 2) && leapyear then 29 else _DAYS_IN_MONTH m))
  && (_DAYS_BEFORE_MONTH m + (if (m >? 2) && leapyear then 1 else 0) + d =? n + 1).

(** The gateway object a payment call works on: the one injected, or a
    default instance. *)
Definition gateway_or_default {G : Type} `{PaymentGateway G}
    (payment_gateway : option G) : G :=
  match payment_gateway with
  | None => PaymentGateway_new
  | Some g => g
  end.

(** Sample data. *)
Module Sample.
Import InMemory.

Definition jan (d : Z) : datetime := mkdatetime (mkdate 2024 1 d) 9 30 0 0.

Definition dune : book := mkbook 1 "Dune" "Frank Herbert" "9780441013593" 3 2.
Definition emma : book := mkbook 2 "Emma" "Jane Austen" "9780141439587" 1 0.

(** Patron 123456 holds book 1, due on 2024-01-10. *)
Definition db0 : memdb :=
  mkmemdb [dune; emma]
          [mkrecord "123456" 1 (mkdatetime (mkdate 2023 12 27) 9 30 0 0) (jan 10) None]
          true.

Definition empty_db : memdb := mkmemdb [] [] true.

Definition declining : mock_gateway :=
  mkmock (Returned (false, EmptyString, "Card declined"))
         (Returned (false, "Declined")) [].

Definition approving : mock_gateway :=
  mkmock (Returned (true, "txn_123456_success", "Gateway approved"))
         (Returned (true, "Refund processed")) [].

Definition offline : mock_gateway :=
  mkmock (Raised "Network error") (Raised "gateway offline") [].
End Sample.

(** The sum of the late fees listed in a report. *)
Definition sum_late_fees (entries : list current_borrow) : Q :=
  fold_right (fun e acc => (cb_late_fee e + acc)%Q) 0%Q entries.

(** An entry of the current borrows is either free of charge with day
    count 0 or overdue with a fee between 0.50 and 15.00. *)
Definition entry_consistent (e : current_borrow) : Prop :=
  (cb_late_fee e = 0%Q /\ cb_days_overdue e = 0)
  \/ (0 < cb_days_overdue e /\ (1 # 2 <= cb_late_fee e <= 15)%Q).

(** The catalog of the reference database and a shelf of sample rows. *)
Module Shelf.
Import InMemory.

(** Modelled from the spec: [getAllBooks()] of the persistence
    collaborator, every book as a dictionary with all its keys. *)
Definition mem_get_all_books (db : memdb) : option (list catalog_row) :=
  Some (map (fun b => mkrow (Some (book_id b)) (Some (book_title b))
                            (Some (book_author b)) (Some (book_isbn b))
                            (Some (available_copies b)) (Some (total_copies b)))
            (db_books db)).

#[export] Instance mem_catalog : Catalog memdb := {
  get_all_books := mem_get_all_books
}.

(** A database state that is nothing but a list of rows, some of them
    with keys missing. *)
#[export] Instance rows_catalog : Catalog (list catalog_row) := {
  get_all_books := fun rows => Some rows
}.

Definition gatsby : catalog_row :=
  mkrow (Some 1) (Some "The Great Gatsby") (Some "F. Scott Fitzgerald")
        (Some "978-0-7432-7356-5") (Some 2) (Some 3).
Definition mockingbird : catalog_row :=
  mkrow (Some 2) (Some "To Kill a Mockingbird") (Some "Harper Lee")
        (Some "9780061120084") (Some 0) (Some 1).
Definition bare : catalog_row :=
  mkrow None (Some "Great Expectations") None None None None.

Definition rows : list catalog_row := [gatsby; mockingbird; bare].

End Shelf.

(** A database in the manner of [mocker.patch]: every query answers with
    a configured value, every command with a configured flag, and the
    commands received are counted. *)
Module Mocked.

Record mock_db := mkmockdb {
  book_answer : option book;
  isbn_answer : option book;
  borrow_count_answer : Z;
  borrowed_books_answer : option (list borrowed_book);
  history_answer : outcome (list history_row);
  command_answer : bool;
  commands_received : nat
}.

Definition receive (db : mock_db) : bool * mock_db :=
  (command_answer db,
   mkmockdb (book_answer db) (isbn_answer db) (borrow_count_answer db)
            (borrowed_books_answer db) (history_answer db) (command_answer db)
            (S (commands_received db))).

#[export] Instance mock_persistence : Persistence mock_db := {
  get_book_by_id := fun _ db => book_answer db;
  get_book_by_isbn := fun _ db => isbn_answer db;
  get_patron_borrow_count := fun _ db => borrow_count_answer db;
  get_patron_borrowed_books := fun _ db => borrowed_books_answer db;
  insert_book := fun _ _ _ _ _ db => receive db;
  insert_borrow_record := fun _ _ _ _ db => receive db;
  update_book_availability := fun _ _ db => receive db;
  update_borrow_record_return_date := fun _ _ _ db => receive db;
  fetch_borrow_history := fun _ db => history_answer db
}.

(** One book, and patron 123456 holding book 1 (due 2024-01-10, stored as
    text) and book 7 (no readable due date). *)
Definition db : mock_db :=
  mkmockdb (Some (mkbook 1 "Mock Title" "Mock Author" "1234567890123" 2 1))
           None 2
           (Some [mkborrowed 1 "Mock Title" (VStr "2024-01-10");
                  mkborrowed 7 "Undated" (VStr "soon")])
           (Returned
              [mkhistory_row 1 "Mock Title" (VStr "2023-12-27 09:30:00")
                             (VStr "2024-01-10") VNone])
           true 0.

End Mocked.

(* ================================================================== *)
(** * Properties *)
(* ================================================================== *)

(** ** The calendar *)

Ltac cal_simpl := cbn -[Z.add Z.sub Z.le Z.lt] in *.

Ltac month_cases m :=
  let H := fresh "Hm" in
  assert (H : m = 1 \/ m = 2 \/ m = 3 \/ m = 4 \/ m = 5 \/ m = 6 \/
              m = 7 \/ m = 8 \/ m = 9 \/ m = 10 \/ m = 11 \/ m = 12) by lia;
  repeat (destruct H as [H | H]); subst m.

Lemma _days_before_year_succ (y : Z) :
  _days_before_year (y + 1) = _days_before_year y + 365 + leap_day y.
Proof.
  unfold _days_before_year, leap_day, _is_leap.
  replace (y + 1 - 1) with y by lia.
  destruct (y mod 4 =? 0) eqn:E4; destruct (y mod 100 =? 0) eqn:E100;
    destruct (y mod 400 =? 0) eqn:E400; cbn [andb orb negb];
    rewrite ?Z.eqb_eq, ?Z.eqb_neq in *;
    Z.div_mod_to_equations; lia.
Qed.

Lemma _days_before_year_mono (y1 y2 : Z) :
  y1 <= y2 -> _days_before_year y1 <= _days_before_year y2.
Proof.
  unfold _days_before_year. intros Hle.
  Z.div_mod_to_equations. lia.
Qed.

Lemma day_of_year_bounds (y m d : Z) :
  1 <= m <= 12 -> 1 <= d <= _days_in_month y m ->
  1 <= _days_before_month y m + d <= 365 + leap_day y.
Proof.
  unfold _days_in_month, _days_before_month, leap_day. intros Hm Hd.
  month_cases m; destruct (_is_leap y); cal_simpl; lia.
Qed.

Lemma day_of_year_lt (y m1 d1 m2 d2 : Z) :
  1 <= m1 <= 12 -> 1 <= d1 <= _days_in_month y m1 ->
  1 <= m2 <= 12 -> 1 <= d2 <= _days_in_month y m2 ->
  m1 < m2 \/ (m1 = m2 /\ d1 < d2) ->
  _days_before_month y m1 + d1 < _days_before_month y m2 + d2.
Proof.
  unfold _days_in_month, _days_before_month. intros Hm1 Hd1 Hm2 Hd2 Hlt.
  month_cases m1; month_cases m2; destruct (_is_leap y); cal_simpl; lia.
Qed.

(** The order of dates is the order of their ordinals. *)
Lemma toordinal_lt (a b : date) :
  valid_date a -> valid_date b ->
  date_ltb a b = true <-> toordinal a < toordinal b.
Proof.
  destruct a as [y1 m1 d1], b as [y2 m2 d2].
  unfold valid_date, date_ltb, toordinal, _ymd2ord; cbn [year month day].
  intros (Hy1 & Hm1 & Hd1) (Hy2 & Hm2 & Hd2).
  pose proof (day_of_year_bounds y1 m1 d1 Hm1 Hd1) as B1.
  pose proof (day_of_year_bounds y2 m2 d2 Hm2 Hd2) as B2.
  pose proof (_days_before_year_succ y1) as S1.
  pose proof (_days_before_year_succ y2) as S2.
  destruct (Z.lt_trichotomy y1 y2) as [Hy | [Hy | Hy]].
  - pose proof (_days_before_year_mono (y1 + 1) y2 ltac:(lia)).
    replace (y1 <? y2) with true by (symmetry; apply Z.ltb_lt; lia).
    cbn [orb]. split; [intros _; lia | reflexivity].
  - subst y2.
    rewrite Z.ltb_irrefl, Z.eqb_refl. cbn [orb andb].
    rewrite orb_true_iff, andb_true_iff, !Z.ltb_lt, Z.eqb_eq.
    split.
    + intros Hlex.
      pose proof (day_of_year_lt y1 m1 d1 m2 d2 Hm1 Hd1 Hm2 Hd2 Hlex). lia.
    + intros Hord.
      destruct (Z.lt_trichotomy m1 m2) as [Hm | [Hm | Hm]]; [now left | | ].
      * subst m2. right. split; [reflexivity | lia].
      * exfalso.
        pose proof (day_of_year_lt y1 m2 d2 m1 d1 Hm2 Hd2 Hm1 Hd1 (or_introl Hm)).
        lia.
  - pose proof (_days_before_year_mono (y2 + 1) y1 ltac:(lia)).
    replace (y1 <? y2) with false by (symmetry; apply Z.ltb_ge; lia).
    replace (y1 =? y2) with false by (symmetry; apply Z.eqb_neq; lia).
    cbn [orb andb]. split; [discriminate | lia].
Qed.

Lemma month_day_ok_all (leapyear : bool) (n : Z) :
  0 <= n < 365 -> month_day_ok leapyear n = true.
Proof.
  intros Hn.
  assert (Hall : forallb (month_day_ok leapyear) (map Z.of_nat (seq 0 365)) = true)
    by (destruct leapyear; vm_compute; reflexivity).
  rewrite forallb_forall in Hall. apply Hall.
  apply in_map_iff. exists (Z.to_nat n). split; [lia | apply in_seq; lia].
Qed.

Lemma _is_leap_spec (y : Z) (b : bool) :
  (b = true <-> (y mod 4 = 0 /\ (y mod 100 <> 0 \/ y mod 400 = 0))) ->
  _is_leap y = b.
Proof.
  unfold _is_leap. intros Hb.
  destruct (y mod 4 =? 0) eqn:E4; destruct (y mod 100 =? 0) eqn:E100;
    destruct (y mod 400 =? 0) eqn:E400; cbn [andb orb negb];
    rewrite ?Z.eqb_eq, ?Z.eqb_neq in *; destruct b; try reflexivity;
      try (exfalso; intuition congruence).
  all: try (symmetry; apply Hb; intuition congruence).
  all: try (destruct Hb as [Hb _]; specialize (Hb eq_refl); intuition congruence).
Qed.

(** [fromordinal] builds a date and is a right inverse of [toordinal]. *)
Lemma _ord2ymd_spec (n : Z) :
  1 <= n -> valid_date (_ord2ymd n) /\ toordinal (_ord2ymd n) = n.
Proof.
  intros Hn. unfold _ord2ymd, _DI400Y, _DI100Y, _DI4Y.
  set (q400 := (n - 1) / 146097). set (r400 := (n - 1) mod 146097).
  set (n100 := r400 / 36524). set (r100 := r400 mod 36524).
  set (n4 := r100 / 1461). set (r4 := r100 mod 1461).
  set (n1 := r4 / 365). set (r1 := r4 mod 365).
  assert (E400 : n - 1 = 146097 * q400 + r400 /\ 0 <= r400 < 146097 /\ 0 <= q400)
    by (subst q400 r400; Z.div_mod_to_equations; lia).
  assert (E100 : r400 = 36524 * n100 + r100 /\ 0 <= r100 < 36524 /\ 0 <= n100 <= 4)
    by (subst n100 r100; Z.div_mod_to_equations; lia).
  assert (E4 : r100 = 1461 * n4 + r4 /\ 0 <= r4 < 1461 /\ 0 <= n4 <= 24)
    by (subst n4 r4; Z.div_mod_to_equations; lia).
  assert (E1 : r4 = 365 * n1 + r1 /\ 0 <= r1 < 365 /\ 0 <= n1 <= 4)
    by (subst n1 r1; Z.div_mod_to_equations; lia).
  clearbody q400 r400 n100 r100 n4 r4 n1 r1.
  destruct E400 as (E400 & B400 & Q400), E100 as (E100 & B100 & N100),
           E4 as (E4 & B4 & N4), E1 as (E1 & B1 & N1).
  set (y := q400 * 400 + 1 + n100 * 100 + n4 * 4 + n1).
  destruct ((n1 =? 4) || (n100 =? 4)) eqn:Elast.
  - (* the last day of a leap year *)
    apply orb_true_iff in Elast. rewrite !Z.eqb_eq in Elast.
    assert (Hy : _is_leap (y - 1) = true).
    { apply _is_leap_spec. subst y.
      split; [intros _ | reflexivity].
      Z.div_mod_to_equations. lia. }
    assert (Hd : _days_before_year (y - 1) + 366 = n).
    { unfold _days_before_year. subst y. Z.div_mod_to_equations. lia. }
    unfold valid_date, toordinal, _ymd2ord, _days_in_month, _days_before_month.
    cbn [year month day]. rewrite Hy. cbn -[Z.add Z.sub Z.le Z.lt _days_before_year].
    assert (1 <= y - 1) by (subst y; lia).
    lia.
  - apply orb_false_iff in Elast. rewrite !Z.eqb_neq in Elast.
    set (leapyear := (n1 =? 3) && (negb (n4 =? 24) || (n100 =? 3))).
    assert (Hy : _is_leap y = leapyear).
    { apply _is_leap_spec. subst y leapyear.
      rewrite andb_true_iff, orb_true_iff, negb_true_iff, !Z.eqb_eq, Z.eqb_neq.
      Z.div_mod_to_equations. lia. }
    assert (Hd : _days_before_year y + r1 + 1 = n).
    { unfold _days_before_year. subst y. Z.div_mod_to_equations. lia. }
    pose proof (month_day_ok_all leapyear r1 B1) as Hok.
    unfold month_day_ok, month_day in Hok.
    clearbody leapyear.
    set (m := Z.shiftr (r1 + 50) 5) in *.
    set (p := _DAYS_BEFORE_MONTH m + (if (m >? 2) && leapyear then 1 else 0)) in *.
    assert (1 <= y) by (subst y; lia).
    destruct (p >? r1);
      unfold valid_date, toordinal, _ymd2ord, _days_in_month, _days_before_month;
      cbn [year month day]; rewrite Hy;
      rewrite !andb_true_iff, !Z.leb_le, Z.eqb_eq in Hok; lia.
Qed.

Lemma toordinal_pos (d : date) : valid_date d -> 1 <= toordinal d.
Proof.
  destruct d as [y m d]. unfold valid_date, toordinal, _ymd2ord; cbn [year month day].
  intros (Hy & Hm & Hd).
  pose proof (day_of_year_bounds y m d Hm Hd).
  pose proof (_days_before_year_mono 1 y Hy).
  change (_days_before_year 1) with 0 in *. lia.
Qed.

(** Adding days to a timestamp moves its date by that many days and keeps
    the time of day. *)
Lemma datetime_add_days_spec (t : datetime) (n : Z) :
  valid_date (date_of t) -> 0 <= n ->
  valid_date (date_of (datetime_add_days t n)) /\
  date_sub_days (date_of (datetime_add_days t n)) (date_of t) = n /\
  hour (datetime_add_days t n) = hour t /\
  minute (datetime_add_days t n) = minute t /\
  second (datetime_add_days t n) = second t /\
  microsecond (datetime_add_days t n) = microsecond t.
Proof.
  intros Hv Hn0. pose proof (toordinal_pos _ Hv) as Hpos.
  destruct (_ord2ymd_spec (toordinal (date_of t) + n) ltac:(lia)) as [Hvalid Hord].
  unfold datetime_add_days, date_sub_days, date_of in *. cbn [dt_date hour minute second microsecond].
  repeat split; try apply Hvalid. lia.
Qed.

(** ** Money *)

Lemma round_half_even_Z (q : Q) (n : Z) :
  (q == inject_Z n)%Q -> round_half_even q = n.
Proof.
  intros Hq. unfold round_half_even.
  assert (Hfl : Qfloor q = n) by (rewrite Hq; apply Qfloor_Z).
  rewrite Hfl.
  assert (Hc : ((q - inject_Z n) ?= 1 # 2)%Q = Lt).
  { rewrite Hq. setoid_replace (inject_Z n - inject_Z n)%Q with 0%Q by ring.
    reflexivity. }
  now rewrite Hc.
Qed.

Lemma Qmin_half_dollars (a b : Z) :
  (Qmin (inject_Z a * (1 # 2) + inject_Z b * 1) 15 == Z.min (a + 2 * b) 30 # 2)%Q.
Proof.
  destruct (Q.min_spec (inject_Z a * (1 # 2) + inject_Z b * 1) 15) as [[Hc He] | [Hc He]];
    rewrite He; revert Hc;
    unfold Qlt, Qle, Qeq, Qplus, Qmult, inject_Z; cbn [Qnum Qden];
    rewrite ?Pos.mul_1_l, ?Pos.mul_1_r, ?Z.mul_1_r; intros; lia.
Qed.

Lemma fee_formula_half_dollars (days : Z) :
  (fee_formula days == half_dollars days # 2)%Q.
Proof.
  unfold fee_formula, half_dollars.
  rewrite <- Qmin_half_dollars.
  apply Q.min_compat; [ring | reflexivity].
Qed.

(** Rounding to two decimals leaves a whole number of half dollars as it
    is. *)
Lemma _monetize_half (k : Z) (q : Q) : (q == k # 2)%Q -> _monetize q = Qred (k # 2).
Proof.
  intros Hq. unfold _monetize, cents.
  rewrite (round_half_even_Z (q * 100) (50 * k)).
  - apply Qred_complete. unfold Qeq; cbn [Qnum Qden]. lia.
  - rewrite Hq. unfold Qeq, Qmult, inject_Z; cbn [Qnum Qden]. lia.
Qed.

(** The calculator as a function of the day count. *)
Lemma _compute_fee_by_days (due_dt end_dt : datetime) :
  _compute_fee_from_due_and_end (Some due_dt) (Some end_dt) =
  let days := date_sub_days (date_of end_dt) (date_of due_dt) in
  if days <=? 0 then (0%Q, 0) else (Qred (half_dollars days # 2), days).
Proof.
  unfold _compute_fee_from_due_and_end. cbv zeta.
  destruct (date_sub_days (date_of end_dt) (date_of due_dt) <=? 0); [reflexivity | ].
  f_equal. apply _monetize_half. apply Qmin_half_dollars.
Qed.

Lemma half_dollars_range (days : Z) : 0 < days -> 1 <= half_dollars days <= 30.
Proof. unfold half_dollars. lia. Qed.

Lemma half_dollars_mono (d1 d2 : Z) : d1 <= d2 -> half_dollars d1 <= half_dollars d2.
Proof. unfold half_dollars. lia. Qed.

Lemma Qle_half (a b : Z) : a <= b -> (a # 2 <= b # 2)%Q.
Proof. unfold Qle; cbn [Qnum Qden]. lia. Qed.

Example ord_2024_01_01 : toordinal (mkdate 2024 1 1) = 738886.
Proof. reflexivity. Qed.

Example ord2ymd_738886 : _ord2ymd 738886 = mkdate 2024 1 1.
Proof. reflexivity. Qed.

Example ord2ymd_leap_day :
  _ord2ymd (toordinal (mkdate 2024 2 15) + 14) = mkdate 2024 2 29.
Proof. reflexivity. Qed.

Example ord2ymd_year_end :
  _ord2ymd (toordinal (mkdate 2023 12 25) + 14) = mkdate 2024 1 8.
Proof. reflexivity. Qed.

Example strftime_example :
  strftime_ymd (mkdatetime (mkdate 2024 3 7) 1 2 3 4) = "2024-03-07".
Proof. reflexivity. Qed.

Example fee_4_days :
  _compute_fee_from_due_and_end
    (Some (mkdatetime (mkdate 2024 1 1) 23 59 0 0))
    (Some (mkdatetime (mkdate 2024 1 5) 0 0 1 0)) = (2%Q, 4).
Proof. reflexivity. Qed.

Example fee_10_days :
  _compute_fee_from_due_and_end
    (Some (mkdatetime (mkdate 2024 1 1) 0 0 0 0))
    (Some (mkdatetime (mkdate 2024 1 11) 0 0 0 0)) = (13 # 2, 10).
Proof. reflexivity. Qed.

Example fee_30_days :
  _compute_fee_from_due_and_end
    (Some (mkdatetime (mkdate 2024 1 1) 0 0 0 0))
    (Some (mkdatetime (mkdate 2024 1 31) 0 0 0 0)) = (15%Q, 30).
Proof. reflexivity. Qed.

Example format_fee_example : format_2f 2 = "2.00" /\ format_2f (13 # 2) = "6.50".
Proof. split; reflexivity. Qed.

(** ** The fee calculator *)

(** C1.  For two timestamps that are present, the calculator returns
    (0.00, 0) when the calendar date of [end_dt] is not after that of
    [due_dt]; otherwise the day count is the difference of the two dates
    in whole days and the fee is
    min(0.50 * min(days,7) + 1.00 * max(days-7,0), 15.00) rounded to two
    decimals, a rounding that leaves the value unchanged.  When either
    timestamp is absent the result is (0.00, 0). *)
Theorem fee_calculator_contract (due_dt end_dt : datetime) :
  valid_date (date_of due_dt) -> valid_date (date_of end_dt) ->
  let days := date_sub_days (date_of end_dt) (date_of due_dt) in
  let result := _compute_fee_from_due_and_end (Some due_dt) (Some end_dt) in
  (date_ltb (date_of due_dt) (date_of end_dt) = false -> result = (0%Q, 0))
  /\ (date_ltb (date_of due_dt) (date_of end_dt) = true ->
      0 < days
      /\ snd result = days
      /\ fst result = _monetize (fee_formula days)
      /\ (fst result == fee_formula days)%Q)
  /\ (forall t, _compute_fee_from_due_and_end None t = (0%Q, 0))
  /\ (forall t, _compute_fee_from_due_and_end t None = (0%Q, 0)).
Proof.
  intros Hdue Hend days result.
  pose proof (toordinal_lt _ _ Hdue Hend) as Hord.
  subst result. rewrite _compute_fee_by_days. cbv zeta. fold days.
  assert (Hdays : days = toordinal (date_of end_dt) - toordinal (date_of due_dt))
    by reflexivity.
  repeat split.
  - intros Hnot.
    assert (Hle : days <= 0).
    { destruct (Z_lt_le_dec (toordinal (date_of due_dt)) (toordinal (date_of end_dt)))
        as [Hlt | Hge]; [ | lia].
      apply Hord in Hlt. congruence. }
    apply Z.leb_le in Hle. now rewrite Hle.
  - apply Hord in H. lia.
  - apply Hord in H.
    replace (days <=? 0) with false by (symmetry; apply Z.leb_gt; lia).
    reflexivity.
  - apply Hord in H.
    replace (days <=? 0) with false by (symmetry; apply Z.leb_gt; lia).
    cbn [fst]. symmetry. apply _monetize_half, fee_formula_half_dollars.
  - apply Hord in H.
    replace (days <=? 0) with false by (symmetry; apply Z.leb_gt; lia).
    cbn [fst]. rewrite Qred_correct. symmetry. apply fee_formula_half_dollars.
  - now destruct t.
Qed.

Lemma fee_calculator_contract_witness :
  _compute_fee_from_due_and_end
    (Some (mkdatetime (mkdate 2024 2 25) 18 0 0 0))
    (Some (mkdatetime (mkdate 2024 3 6) 8 15 0 0))
  = (_monetize (fee_formula 10), 10).
Proof.
  pose proof (fee_calculator_contract
                (mkdatetime (mkdate 2024 2 25) 18 0 0 0)
                (mkdatetime (mkdate 2024 3 6) 8 15 0 0)) as Hthm.
  cbv zeta in Hthm.
  destruct Hthm as (_ & Hafter & _).
  - unfold valid_date; cbn; lia.
  - unfold valid_date; cbn; lia.
  - destruct (Hafter eq_refl) as (_ & Hdays & Hfee & _).
    rewrite surjective_pairing at 1. rewrite Hdays, Hfee. reflexivity.
Defined.

(** C2.  The fee of every pair of timestamps lies between 0 and 15; it is
    non-decreasing in the number of days overdue; and it is 0 whenever
    that number is at most 0. *)
Theorem fee_bounds_and_monotonicity :
  (forall due_dt end_dt,
      (0 <= fst (_compute_fee_from_due_and_end (Some due_dt) (Some end_dt)) <= 15)%Q)
  /\ (forall due1 end1 due2 end2,
         date_sub_days (date_of end1) (date_of due1)
         <= date_sub_days (date_of end2) (date_of due2) ->
         (fst (_compute_fee_from_due_and_end (Some due1) (Some end1))
          <= fst (_compute_fee_from_due_and_end (Some due2) (Some end2)))%Q)
  /\ (forall due_dt end_dt,
         date_sub_days (date_of end_dt) (date_of due_dt) <= 0 ->
         fst (_compute_fee_from_due_and_end (Some due_dt) (Some end_dt)) = 0%Q).
Proof.
  repeat split.
  - rewrite _compute_fee_by_days. cbv zeta.
    destruct (Z.leb_spec (date_sub_days (date_of end_dt) (date_of due_dt)) 0) as [Hle | Hgt];
      cbn [fst]; [apply Qle_refl | ].
    rewrite Qred_correct. pose proof (half_dollars_range _ Hgt).
    unfold Qle; cbn [Qnum Qden]. lia.
  - rewrite _compute_fee_by_days. cbv zeta.
    destruct (Z.leb_spec (date_sub_days (date_of end_dt) (date_of due_dt)) 0) as [Hle | Hgt];
      cbn [fst]; [discriminate | ].
    rewrite Qred_correct. pose proof (half_dollars_range _ Hgt).
    unfold Qle; cbn [Qnum Qden]. lia.
  - intros due1 end1 due2 end2 Hle. rewrite !_compute_fee_by_days. cbv zeta.
    destruct (Z.leb_spec (date_sub_days (date_of end1) (date_of due1)) 0) as [H1 | H1];
      destruct (Z.leb_spec (date_sub_days (date_of end2) (date_of due2)) 0) as [H2 | H2];
      cbn [fst]; try apply Qle_refl; try lia.
    + rewrite Qred_correct. pose proof (half_dollars_range _ H2).
      unfold Qle; cbn [Qnum Qden]. lia.
    + rewrite !Qred_correct. apply Qle_half, half_dollars_mono, Hle.
  - intros due_dt end_dt Hle. rewrite _compute_fee_by_days. cbv zeta.
    apply Z.leb_le in Hle. now rewrite Hle.
Qed.

Lemma fee_bounds_and_monotonicity_witness :
  (fst (_compute_fee_from_due_and_end (Some (Sample.jan 10)) (Some (Sample.jan 14)))
   <= fst (_compute_fee_from_due_and_end (Some (Sample.jan 10)) (Some (Sample.jan 22))))%Q
  /\ fst (_compute_fee_from_due_and_end (Some (Sample.jan 10)) (Some (Sample.jan 3))) = 0%Q.
Proof.
  destruct fee_bounds_and_monotonicity as (_ & Hmono & Hzero).
  split.
  - apply Hmono. vm_compute. discriminate.
  - apply Hzero. vm_compute. discriminate.
Defined.

(** ** Patron identifiers *)

Lemma all_digits_isdigit (s : string) :
  s <> EmptyString -> PyStr.isdigit s = PyStr.all_digits s.
Proof. destruct s; [congruence | reflexivity]. Qed.

(** The check written in the entry points lets through exactly the texts
    of six digits. *)
Lemma patron_id_rejected_false_iff (s : string) :
  patron_id_rejected s = false <-> six_digits s.
Proof.
  unfold patron_id_rejected, six_digits, PyStr.len.
  rewrite !orb_false_iff, !negb_false_iff, Z.eqb_eq.
  split.
  - intros [[Ht Hd] Hl]. destruct s as [ | c s]; [discriminate | ].
    split; [lia | exact Hd].
  - intros [Hl Hd]. destruct s as [ | c s]; [discriminate | ].
    repeat split; [exact Hd | lia].
Qed.

Lemma patron_id_rejected_true_iff (s : string) :
  patron_id_rejected s = true <-> ~ six_digits s.
Proof.
  rewrite <- patron_id_rejected_false_iff.
  destruct (patron_id_rejected s); split; congruence.
Qed.

Example patron_id_examples :
  patron_id_rejected "123456" = false
  /\ patron_id_rejected "12345" = true
  /\ patron_id_rejected "12A456" = true
  /\ patron_id_rejected "1234567" = true
  /\ patron_id_rejected EmptyString = true.
Proof. repeat split. Qed.

(** ** The entry points *)

Section ServiceProperties.

Context {DB C G : Type}.
Context `{Persistence DB} `{Clock C} `{PaymentGateway G} `{DatetimeParsing}.

(** The loop over the current borrows reads the clock and leaves the
    database as it is. *)
Lemma current_borrows_loop_db (current : list borrowed_book) :
  forall total_fees acc (w : world DB C),
    w_db (snd (current_borrows_loop current total_fees acc w)) = w_db w.
Proof.
  induction current as [ | r rest IH]; intros total_fees acc w; [reflexivity | ].
  cbn [current_borrows_loop]. unfold bind, now.
  destruct (datetime_now (w_clock w)) as [t c'].
  destruct (_compute_fee_from_due_and_end (due_datetime (bb_due_date r)) (Some t))
    as [fee_amt days_overdue].
  rewrite IH. reflexivity.
Qed.

(** It appends one entry per active record. *)
Lemma current_borrows_loop_length (current : list borrowed_book) :
  forall total_fees acc (w : world DB C),
    length (snd (fst (current_borrows_loop current total_fees acc w)))
    = (length acc + length current)%nat.
Proof.
  induction current as [ | r rest IH]; intros total_fees acc w.
  - cbn. lia.
  - cbn [current_borrows_loop]. unfold bind, now.
    destruct (datetime_now (w_clock w)) as [t c'].
    destruct (_compute_fee_from_due_and_end (due_datetime (bb_due_date r)) (Some t))
      as [fee_amt days_overdue].
    rewrite IH, length_app. cbn [length]. lia.
Qed.

(** [calculate_late_fee_for_book] always fills in the fee, so the
    [Unable to calculate late fees.] exit of [pay_late_fees] is not
    taken. *)
Lemma calculate_late_fee_for_book_has_fee (patron_id : string) (book_id : Z)
    (w : world DB C) :
  fi_fee_amount (fst (calculate_late_fee_for_book patron_id book_id w)) <> None.
Proof.
  unfold calculate_late_fee_for_book, bind, query, ret, now.
  destruct (find_active _ _); [ | discriminate].
  destruct (datetime_now (w_clock w)) as [t c'].
  destruct (_compute_fee_from_due_and_end _ _). discriminate.
Qed.

(** It changes nothing in the database. *)
Lemma calculate_late_fee_for_book_db (patron_id : string) (book_id : Z)
    (w : world DB C) :
  w_db (snd (calculate_late_fee_for_book patron_id book_id w)) = w_db w.
Proof.
  unfold calculate_late_fee_for_book, bind, query, ret, now.
  destruct (find_active _ _); [ | reflexivity].
  destruct (datetime_now (w_clock w)) as [t c'].
  destruct (_compute_fee_from_due_and_end _ _). reflexivity.
Qed.


(** C7.  For a valid patron ID, an exception raised on the way to the
    history rows is swallowed: the history of the report is empty, and
    the current borrows, their count and the total of the fees are
    those the loop over the active records computes, with status
    [ok]. *)
Theorem history_failure_is_swallowed
    (patron_id : string) (w : world DB C) (e : string) :
  six_digits patron_id ->
  fetch_borrow_history patron_id (w_db w) = Raised e ->
  let current := or_empty (get_patron_borrowed_books patron_id (w_db w)) in
  let '((total_fees, current_borrows), w') :=
    current_borrows_loop current 0%Q [] w in
  get_patron_status_report patron_id w
  = (mkreport patron_id current_borrows (Z.of_nat (length current_borrows))
              (_monetize total_fees) [] "ok", w')
  /\ length current_borrows = length current.
Proof.
  intros Hid Hfail current.
  apply patron_id_rejected_false_iff in Hid.
  pose proof (current_borrows_loop_db current 0%Q [] w) as Hdb.
  pose proof (current_borrows_loop_length current 0%Q [] w) as Hlen.
  unfold get_patron_status_report. rewrite Hid.
  unfold bind at 1. unfold query at 1. fold current.
  unfold bind at 1.
  destruct (current_borrows_loop current 0%Q [] w) as [[total_fees current_borrows] w'].
  cbn [fst snd] in Hdb, Hlen.
  unfold bind, query, ret. rewrite Hdb, Hfail.
  split; [reflexivity | exact Hlen].
Qed.


(** C5, as amended.  When no active borrow record exists for the pair,
    returning fails and changes nothing, and for a patron ID of six
    digits and an existing book the message is the one about the
    missing active record.  When the patron ID is well formed, the book
    exists and an active record is found, the clock is read once; the
    fee is computed from the due date of that record against this
    instant, before any write; the same instant is recorded as the
    return date and 1 is added to the available copies; with both
    writes done the call succeeds, reporting the fee when it is
    positive and an on-time return otherwise. *)
Theorem return_book_by_patron_contract
    (patron_id : string) (book_id : Z) (w : world DB C) :
  let current := or_empty (get_patron_borrowed_books patron_id (w_db w)) in
  (find_active current book_id = None ->
   fst (fst (return_book_by_patron patron_id book_id w)) = false
   /\ snd (return_book_by_patron patron_id book_id w) = w
   /\ (six_digits patron_id ->
       get_book_by_id book_id (w_db w) <> None ->
       snd (fst (return_book_by_patron patron_id book_id w))
       = "No active borrow record found for this patron and book."))
  /\
  (forall book active,
      six_digits patron_id ->
      get_book_by_id book_id (w_db w) = Some book ->
      find_active current book_id = Some active ->
      let (end_dt, c1) := datetime_now (w_clock w) in
      let '(fee_amt, days_overdue) :=
        _compute_fee_from_due_and_end (due_datetime (bb_due_date active))
                                      (Some end_dt) in
      let (recorded, db1) :=
        update_borrow_record_return_date patron_id book_id end_dt (w_db w) in
      let (updated, db2) := update_book_availability book_id 1 db1 in
      return_book_by_patron patron_id book_id w
      = if recorded then
          if updated then
            ((true,
              if Qlt_le_dec 0 fee_amt then
                "Returned " ++ PyStr.dquote ++ book_title book ++ PyStr.dquote
                ++ ". Late fee: $" ++ format_2f fee_amt
                ++ " (overdue by " ++ PyStr.of_int days_overdue ++ " day(s))."
              else
                "Returned " ++ PyStr.dquote ++ book_title book ++ PyStr.dquote
                ++ " on time. No late fee."),
             mkworld db2 c1)
          else
            ((false, "Database error while updating book availability."),
             mkworld db2 c1)
        else
          ((false, "Database error while recording the return."), mkworld db1 c1)).
Proof.
  intros current. subst current. split.
  - intros Hnone. unfold return_book_by_patron, bind, query, ret.
    destruct (patron_id_rejected patron_id) eqn:Hid.
    + repeat split. intros Hsix. apply patron_id_rejected_false_iff in Hsix. congruence.
    + destruct (get_book_by_id book_id (w_db w)) as [book | ].
      * rewrite Hnone. repeat split.
      * repeat split. intros _ Hbook. congruence.
  - intros book active Hid Hbook Hactive.
    apply patron_id_rejected_false_iff in Hid.
    unfold return_book_by_patron, bind, query, command, now, ret.
    rewrite Hid, Hbook, Hactive.
    destruct (datetime_now (w_clock w)) as [end_dt c1].
    destruct (_compute_fee_from_due_and_end (due_datetime (bb_due_date active))
                (Some end_dt)) as [fee_amt days_overdue].
    cbn [w_db w_clock].
    destruct (update_borrow_record_return_date patron_id book_id end_dt (w_db w))
      as [recorded db1].
    destruct (update_book_availability book_id 1 db1) as [updated db2] eqn:Hupdate.
    destruct recorded; cbn [negb w_db w_clock]; [ | reflexivity].
    rewrite Hupdate. destruct updated; cbn [negb]; [ | reflexivity].
    destruct (Qlt_le_dec 0 fee_amt) as [Hpos | Hzero].
    + replace (Qle_bool fee_amt 0) with false; [reflexivity | ].
      symmetry. apply not_true_is_false. rewrite Qle_bool_iff.
      intros Hle. exact (Qlt_not_le _ _ Hpos Hle).
    + apply Qle_bool_iff in Hzero. rewrite Hzero. reflexivity.
Qed.

(** C8.  In [pay_late_fees], for a well-formed patron ID: when the fee
    computed for the book is zero or negative the call fails with
    [No late fees to pay for this book.], carries no transaction
    identifier and hands back the gateway exactly as it received it, no
    default gateway being built either; and when the fee is positive,
    the book exists and [process_payment] raises, the call returns the
    failure [Payment processing error: ...] with the text of the
    exception and no transaction identifier. *)
Theorem pay_late_fees_no_fee_and_gateway_fault
    (patron_id : string) (book_id : Z) (payment_gateway : option G)
    (w : world DB C) :
  six_digits patron_id ->
  let computed := calculate_late_fee_for_book patron_id book_id w in
  (forall fee,
      fi_fee_amount (fst computed) = Some fee -> (fee <= 0)%Q ->
      pay_late_fees patron_id book_id payment_gateway w
      = (((false, "No late fees to pay for this book.", None), payment_gateway),
         snd computed))
  /\
  (forall fee book e g1,
      fi_fee_amount (fst computed) = Some fee -> (0 < fee)%Q ->
      get_book_by_id book_id (w_db (snd computed)) = Some book ->
      process_payment patron_id fee ("Late fees for '" ++ book_title book ++ "'")
                      (gateway_or_default payment_gateway) = (Raised e, g1) ->
      pay_late_fees patron_id book_id payment_gateway w
      = (((false, "Payment processing error: " ++ e, None), Some g1), snd computed)).
Proof.
  intros Hid computed. subst computed.
  apply patron_id_rejected_false_iff in Hid.
  unfold pay_late_fees. rewrite Hid. unfold bind at 1 3.
  destruct (calculate_late_fee_for_book patron_id book_id w) as [fee_info w1].
  cbn [fst snd]. split.
  - intros fee Hfee Hle. rewrite Hfee.
    apply Qle_bool_iff in Hle. rewrite Hle. reflexivity.
  - intros fee book e g1 Hfee Hpos Hbook Hraise. rewrite Hfee.
    replace (Qle_bool fee 0) with false.
    + unfold bind, query, ret. rewrite Hbook.
      unfold gateway_or_default in Hraise. rewrite Hraise. reflexivity.
    + symmetry. apply not_true_is_false. rewrite Qle_bool_iff.
      intros Hle. exact (Qlt_not_le _ _ Hpos Hle).
Qed.

(** C10.  [pay_late_fees] returns a transaction identifier exactly when
    it returns success; and on success the identifier is the one
    [process_payment] returned, the gateway having answered with its
    success flag set. *)
Theorem pay_late_fees_transaction_id
    (patron_id : string) (book_id : Z) (payment_gateway : option G)
    (w : world DB C) :
  let '(((success, message, transaction_id), gateway), w') :=
    pay_late_fees patron_id book_id payment_gateway w in
  (transaction_id <> None <-> success = true)
  /\
  (success = true ->
   exists fee book tid msg g1,
     fi_fee_amount (fst (calculate_late_fee_for_book patron_id book_id w)) = Some fee
     /\ get_book_by_id book_id (w_db w') = Some book
     /\ process_payment patron_id fee ("Late fees for '" ++ book_title book ++ "'")
                        (gateway_or_default payment_gateway)
        = (Returned (true, tid, msg), g1)
     /\ transaction_id = Some tid
     /\ message = "Payment successful! " ++ msg
     /\ gateway = Some g1).
Proof.
  unfold pay_late_fees.
  destruct (patron_id_rejected patron_id).
  { cbn. split; [split; congruence | discriminate]. }
  unfold bind at 1.
  destruct (calculate_late_fee_for_book patron_id book_id w) as [fee_info w1].
  cbn [fst].
  destruct (fi_fee_amount fee_info) as [fee | ].
  2: { cbn. split; [split; congruence | discriminate]. }
  destruct (Qle_bool fee 0).
  { cbn. split; [split; congruence | discriminate]. }
  unfold bind, query, ret.
  destruct (get_book_by_id book_id (w_db w1)) as [book | ] eqn:Hbook.
  2: { split; [split; congruence | discriminate]. }
  fold (gateway_or_default payment_gateway).
  destruct (process_payment patron_id fee ("Late fees for '" ++ book_title book ++ "'")
              (gateway_or_default payment_gateway)) as [answer g1] eqn:Hpay.
  destruct answer as [[[success tid] msg] | e].
  - destruct success.
    + split; [split; congruence | ].
      intros _. exists fee, book, tid, msg, g1. repeat split; assumption.
    + split; [split; congruence | discriminate].
  - split; [split; congruence | discriminate].
Qed.

End ServiceProperties.

(** C9.  [refund_late_fee_payment] rejects a transaction ID that does not
    start with [txn_], an amount of 0 or less and an amount above 15, and
    then hands back the gateway exactly as it received it, no default
    gateway being built either.  When the three checks pass it calls
    [refund_payment] once, on the gateway passed in or on a default one,
    and maps the answer: success to success with the message of the
    gateway, a reported failure to [Refund failed: ...], an exception to
    [Refund processing error: ...]. *)
Theorem refund_late_fee_payment_contract {G : Type} `{PaymentGateway G}
    (transaction_id : string) (amount : Q) (payment_gateway : option G) :
  (PyStr.startswith transaction_id "txn_" = false
   \/ (amount <= 0)%Q \/ (15 < amount)%Q ->
   fst (fst (refund_late_fee_payment transaction_id amount payment_gateway)) = false
   /\ snd (refund_late_fee_payment transaction_id amount payment_gateway)
      = payment_gateway)
  /\
  (PyStr.startswith transaction_id "txn_" = true ->
   (0 < amount)%Q -> (amount <= 15)%Q ->
   let (answer, g1) :=
     refund_payment transaction_id amount (gateway_or_default payment_gateway) in
   refund_late_fee_payment transaction_id amount payment_gateway
   = (match answer with
      | Returned (true, message) => (true, message)
      | Returned (false, message) => (false, "Refund failed: " ++ message)
      | Raised e => (false, "Refund processing error: " ++ e)
      end, Some g1)).
Proof.
  unfold refund_late_fee_payment. split.
  - intros Hbad.
    destruct (negb (PyStr.truthy transaction_id)
              || negb (PyStr.startswith transaction_id "txn_")) eqn:Htxn;
      [now split | ].
    destruct (Qle_bool amount 0) eqn:Hzero; [now split | ].
    destruct (Qle_bool amount 15) eqn:Hcap; cbn [negb]; [ | now split].
    exfalso.
    apply orb_false_iff in Htxn. destruct Htxn as [_ Hprefix].
    apply negb_false_iff in Hprefix.
    apply Qle_bool_iff in Hcap.
    destruct Hbad as [Hno | [Hle | Hgt]].
    + congruence.
    + apply Qle_bool_iff in Hle. congruence.
    + exact (Qlt_not_le _ _ Hgt Hcap).
  - intros Hprefix Hpos Hcap.
    assert (Htruthy : PyStr.truthy transaction_id = true).
    { destruct transaction_id; [discriminate Hprefix | reflexivity]. }
    rewrite Htruthy, Hprefix. cbn [negb orb].
    replace (Qle_bool amount 0) with false.
    + apply Qle_bool_iff in Hcap. rewrite Hcap. cbn [negb].
      fold (gateway_or_default payment_gateway).
      destruct (refund_payment transaction_id amount
                  (gateway_or_default payment_gateway)) as [answer g1].
      destruct answer as [[success message] | e]; [destruct success | ]; reflexivity.
    + symmetry. apply not_true_is_false. rewrite Qle_bool_iff.
      intros Hle. exact (Qlt_not_le _ _ Hpos Hle).
Qed.

(** ** Adding a book *)

Lemma truthy_false_iff (s : string) : PyStr.truthy s = false <-> s = EmptyString.
Proof. destruct s; split; intros Hs; congruence || reflexivity || discriminate. Qed.

(** The test on a required text field, [not s or not s.strip()], holds
    exactly when nothing is left after stripping. *)
Lemma blank_iff (s : string) :
  negb (PyStr.truthy s) || negb (PyStr.truthy (PyStr.strip s)) = true
  <-> PyStr.strip s = EmptyString.
Proof.
  rewrite orb_true_iff, !negb_true_iff, !truthy_false_iff.
  split; [ | now right].
  intros [-> | Hs]; [reflexivity | exact Hs].
Qed.

Section AddBook.

Context {DB C : Type} `{Persistence DB}.

(** What [add_book_to_catalog] rejects, leaving the database as it is:
    a blank or over-long title or author, an ISBN whose length is not
    13, a copy count of 0 or less, an ISBN the catalog already holds. *)
Lemma add_book_to_catalog_rejects
    (title author isbn : string) (total : Z) (w : world DB C) :
  PyStr.strip title = EmptyString
  \/ 200 < PyStr.len (PyStr.strip title)
  \/ PyStr.strip author = EmptyString
  \/ 100 < PyStr.len (PyStr.strip author)
  \/ String.length isbn <> 13%nat
  \/ total <= 0
  \/ get_book_by_isbn isbn (w_db w) <> None ->
  fst (fst (add_book_to_catalog title author isbn total w)) = false
  /\ snd (add_book_to_catalog title author isbn total w) = w.
Proof.
  intros Hbad. unfold add_book_to_catalog, bind, query, ret.
  destruct (negb (PyStr.truthy title) || negb (PyStr.truthy (PyStr.strip title)))
    eqn:Ht; [now split | ].
  destruct (Z.gtb_spec (PyStr.len (PyStr.strip title)) 200) as [Htl | Htl];
    [now split | ].
  destruct (negb (PyStr.truthy author) || negb (PyStr.truthy (PyStr.strip author)))
    eqn:Ha; [now split | ].
  destruct (Z.gtb_spec (PyStr.len (PyStr.strip author)) 100) as [Hal | Hal];
    [now split | ].
  destruct (Z.eqb_spec (PyStr.len isbn) 13) as [Hi | Hi]; cbn [negb]; [ | now split].
  destruct (Z.leb_spec total 0) as [Hc | Hc]; [now split | ].
  destruct (get_book_by_isbn isbn (w_db w)) as [existing | ] eqn:He; [now split | ].
  exfalso.
  assert (Ht' : PyStr.strip title <> EmptyString).
  { intros Hs. apply blank_iff in Hs. congruence. }
  assert (Ha' : PyStr.strip author <> EmptyString).
  { intros Hs. apply blank_iff in Hs. congruence. }
  unfold PyStr.len in *.
  destruct Hbad as [Hb | [Hb | [Hb | [Hb | [Hb | [Hb | Hb]]]]]];
    try contradiction; try lia; congruence.
Qed.

(** What it accepts: the book is inserted with all its copies
    available, and the message names the stripped title.  The ISBN is
    only measured: its characters are not looked at. *)
Lemma add_book_to_catalog_accepts
    (title author isbn : string) (total : Z) (w : world DB C) :
  PyStr.strip title <> EmptyString ->
  PyStr.len (PyStr.strip title) <= 200 ->
  PyStr.strip author <> EmptyString ->
  PyStr.len (PyStr.strip author) <= 100 ->
  String.length isbn = 13%nat ->
  0 < total ->
  get_book_by_isbn isbn (w_db w) = None ->
  let (inserted, db1) :=
    insert_book (PyStr.strip title) (PyStr.strip author) isbn total total (w_db w) in
  add_book_to_catalog title author isbn total w
  = (if inserted then
       (true, "Book " ++ PyStr.dquote ++ PyStr.strip title ++ PyStr.dquote
              ++ " has been successfully added to the catalog.")
     else (false, "Database error occurred while adding the book."),
     mkworld db1 (w_clock w)).
Proof.
  intros Ht Htl Ha Hal Hi Hc He.
  unfold add_book_to_catalog, bind, query, command, ret.
  replace (negb (PyStr.truthy title) || negb (PyStr.truthy (PyStr.strip title)))
    with false
    by (symmetry; apply not_true_is_false; rewrite blank_iff; exact Ht).
  replace (negb (PyStr.truthy author) || negb (PyStr.truthy (PyStr.strip author)))
    with false
    by (symmetry; apply not_true_is_false; rewrite blank_iff; exact Ha).
  replace (PyStr.len (PyStr.strip title) >? 200) with false
    by (symmetry; rewrite Z.gtb_ltb; apply Z.ltb_ge; lia).
  replace (PyStr.len (PyStr.strip author) >? 100) with false
    by (symmetry; rewrite Z.gtb_ltb; apply Z.ltb_ge; lia).
  replace (PyStr.len isbn =? 13) with true
    by (symmetry; apply Z.eqb_eq; unfold PyStr.len; lia).
  replace (total <=? 0) with false by (symmetry; apply Z.leb_gt; lia).
  cbn [negb]. rewrite He.
  destruct (insert_book (PyStr.strip title) (PyStr.strip author) isbn total total
              (w_db w)) as [inserted db1].
  destruct inserted; reflexivity.
Qed.

End AddBook.

Import InMemory.

(** C3.  The code against the claim: an ISBN of 13 characters that are
    not all digits is not rejected.  On an empty catalog
    [add_book_to_catalog("Book", "Author", "12345678901AB", 1)] succeeds
    and stores the book under that ISBN, with its one copy available. *)
Theorem add_book_accepts_non_digit_isbn :
  PyStr.isdigit "12345678901AB" = false
  /\ add_book_to_catalog "Book" "Author" "12345678901AB" 1
       (mkworld Sample.empty_db (Sample.jan 20))
     = ((true, "Book " ++ PyStr.dquote ++ "Book" ++ PyStr.dquote
               ++ " has been successfully added to the catalog."),
        mkworld (mkmemdb [mkbook 1 "Book" "Author" "12345678901AB" 1 1] [] true)
                (Sample.jan 20)).
Proof. split; reflexivity. Qed.

Example add_book_round_trip :
  let w := mkworld Sample.empty_db (Sample.jan 20) in
  let '(first, w1) := add_book_to_catalog "Test Book" "Test Author" "1234567890123" 5 w in
  let '(second, w2) := add_book_to_catalog "Other" "Author" "1234567890123" 3 w1 in
  fst first = true
  /\ second = (false, "A book with this ISBN already exists.")
  /\ w2 = w1.
Proof. repeat split. Qed.

Example add_book_strips_the_title :
  fst (add_book_to_catalog "  Dune  " "Frank Herbert" "9780441013593" 2
         (mkworld Sample.empty_db (Sample.jan 20)))
  = (true, "Book " ++ PyStr.dquote ++ "Dune" ++ PyStr.dquote
           ++ " has been successfully added to the catalog.").
Proof. reflexivity. Qed.

(** ** The theorems at work on the sample library *)

Lemma six_digits_123456 : six_digits "123456".
Proof. split; reflexivity. Defined.

Lemma not_six_digits_12A456 : ~ six_digits "12A456".
Proof. intros [_ Hdigits]. discriminate Hdigits. Defined.


(** C5, as first stated, fails.  Patron 123456 has no active record for
    book 999, which the catalog does not hold, and patron 12A456 has none
    for book 1: both returns fail, changing nothing, but the message is
    about the missing book and about the patron ID. *)
Lemma return_book_by_patron_message_counterexample :
  let w := mkworld Sample.db0 (Sample.jan 14) in
  (find_active (or_empty (get_patron_borrowed_books "123456" (w_db w))) 999 = None
   /\ return_book_by_patron "123456" 999 w = ((false, "Book not found."), w)
   /\ snd (fst (return_book_by_patron "123456" 999 w))
      <> "No active borrow record found for this patron and book.")
  /\
  (find_active (or_empty (get_patron_borrowed_books "12A456" (w_db w))) 1 = None
   /\ return_book_by_patron "12A456" 1 w
      = ((false, "Invalid patron ID. Must be exactly 6 digits."), w)
   /\ snd (fst (return_book_by_patron "12A456" 1 w))
      <> "No active borrow record found for this patron and book.").
Proof. cbv zeta. repeat split; discriminate. Qed.

Lemma return_book_by_patron_contract_witness :
  return_book_by_patron "123456" 1 (mkworld Sample.db0 (Sample.jan 14))
  = ((true, "Returned " ++ PyStr.dquote ++ "Dune" ++ PyStr.dquote
            ++ ". Late fee: $2.00 (overdue by 4 day(s))."),
     mkworld
       (mkmemdb
          [mkbook 1 "Dune" "Frank Herbert" "9780441013593" 3 3; Sample.emma]
          [mkrecord "123456" 1 (mkdatetime (mkdate 2023 12 27) 9 30 0 0)
                    (Sample.jan 10) (Some (Sample.jan 14))]
          true)
       (Sample.jan 14))
  /\ snd (fst (return_book_by_patron "123456" 2 (mkworld Sample.db0 (Sample.jan 14))))
     = "No active borrow record found for this patron and book.".
Proof.
  split.
  - destruct (return_book_by_patron_contract "123456" 1
                (mkworld Sample.db0 (Sample.jan 14))) as [_ Hok].
    specialize (Hok Sample.dune (mkborrowed 1 "Dune" (VDatetime (Sample.jan 10)))
                    six_digits_123456 eq_refl eq_refl).
    vm_compute in Hok. exact Hok.
  - destruct (return_book_by_patron_contract "123456" 2
                (mkworld Sample.db0 (Sample.jan 14))) as [Hnone _].
    destruct (Hnone eq_refl) as (_ & _ & Hmessage).
    apply Hmessage; [exact six_digits_123456 | discriminate].
Defined.


Lemma history_failure_is_swallowed_witness :
  let unreachable :=
    mkmemdb (db_books Sample.db0) (db_records Sample.db0) false in
  get_patron_status_report "123456" (mkworld unreachable (Sample.jan 14))
  = (mkreport "123456" [mkcurrent_borrow 1 "Dune" (Some "2024-01-10") 4 2%Q]
              1 2%Q [] "ok",
     mkworld unreachable (Sample.jan 14)).
Proof.
  cbv zeta.
  pose proof (history_failure_is_swallowed "123456"
                (mkworld (mkmemdb (db_books Sample.db0) (db_records Sample.db0) false)
                         (Sample.jan 14))
                "db down" six_digits_123456 eq_refl) as Hreport.
  vm_compute in Hreport. destruct Hreport as [Hreport _]. exact Hreport.
Defined.

Lemma pay_late_fees_no_fee_and_gateway_fault_witness :
  pay_late_fees "123456" 1 (Some Sample.approving) (mkworld Sample.db0 (Sample.jan 9))
  = (((false, "No late fees to pay for this book.", None), Some Sample.approving),
     mkworld Sample.db0 (Sample.jan 9))
  /\ pay_late_fees "123456" 1 (Some Sample.offline) (mkworld Sample.db0 (Sample.jan 14))
     = (((false, "Payment processing error: Network error", None),
         Some (mkmock (Raised "Network error") (Raised "gateway offline")
                      [ProcessPayment "123456" 2 "Late fees for 'Dune'"])),
        mkworld Sample.db0 (Sample.jan 14)).
Proof.
  split.
  - exact (proj1 (pay_late_fees_no_fee_and_gateway_fault "123456" 1
                    (Some Sample.approving) (mkworld Sample.db0 (Sample.jan 9))
                    six_digits_123456)
                 0%Q eq_refl (Qle_refl 0)).
  - exact (proj2 (pay_late_fees_no_fee_and_gateway_fault "123456" 1
                    (Some Sample.offline) (mkworld Sample.db0 (Sample.jan 14))
                    six_digits_123456)
                 2%Q Sample.dune "Network error"
                 (mkmock (Raised "Network error") (Raised "gateway offline")
                         [ProcessPayment "123456" 2 "Late fees for 'Dune'"])
                 eq_refl eq_refl eq_refl eq_refl).
Defined.

Lemma refund_late_fee_payment_contract_witness :
  refund_late_fee_payment "txn_98765" (23 # 4) (Some Sample.approving)
  = ((true, "Refund processed"),
     Some (mkmock (process_payment_answer Sample.approving)
                  (refund_payment_answer Sample.approving)
                  [RefundPayment "txn_98765" (23 # 4)]))
  /\ snd (refund_late_fee_payment "txn_55555" 20 (Some Sample.approving))
     = Some Sample.approving.
Proof.
  split.
  - destruct (refund_late_fee_payment_contract "txn_98765" (23 # 4)
                (Some Sample.approving)) as [_ Hdelegated].
    apply Hdelegated; reflexivity || (vm_compute; discriminate).
  - destruct (refund_late_fee_payment_contract "txn_55555" 20
                (Some Sample.approving)) as [Hrejected _].
    apply Hrejected. right. right. reflexivity.
Defined.

Lemma pay_late_fees_transaction_id_witness :
  snd (fst (fst (pay_late_fees "123456" 1 (Some Sample.declining)
                   (mkworld Sample.db0 (Sample.jan 14))))) = None
  /\ snd (fst (fst (pay_late_fees "123456" 1 (Some Sample.approving)
                      (mkworld Sample.db0 (Sample.jan 14))))) <> None.
Proof.
  split.
  - pose proof (pay_late_fees_transaction_id "123456" 1 (Some Sample.declining)
                  (mkworld Sample.db0 (Sample.jan 14))) as Hthm.
    destruct (pay_late_fees "123456" 1 (Some Sample.declining)
                (mkworld Sample.db0 (Sample.jan 14)))
      as [[[[success message] transaction_id] gateway] w'] eqn:Hrun.
    assert (Hfailure : success = false).
    { apply (f_equal (fun r => fst (fst (fst (fst r))))) in Hrun.
      vm_compute in Hrun. congruence. }
    destruct Hthm as [Hiff _]. cbn [fst snd].
    destruct transaction_id as [tid | ]; [ | reflexivity].
    assert (Hsome : Some tid <> None) by discriminate.
    apply Hiff in Hsome. congruence.
  - pose proof (pay_late_fees_transaction_id "123456" 1 (Some Sample.approving)
                  (mkworld Sample.db0 (Sample.jan 14))) as Hthm.
    destruct (pay_late_fees "123456" 1 (Some Sample.approving)
                (mkworld Sample.db0 (Sample.jan 14)))
      as [[[[success message] transaction_id] gateway] w'] eqn:Hrun.
    assert (Hsuccess : success = true).
    { apply (f_equal (fun r => fst (fst (fst (fst r))))) in Hrun.
      vm_compute in Hrun. congruence. }
    destruct Hthm as [Hiff _]. cbn [fst snd]. apply Hiff. exact Hsuccess.
Defined.

Example pay_late_fees_approved :
  pay_late_fees "123456" 1 (Some Sample.approving) (mkworld Sample.db0 (Sample.jan 14))
  = (((true, "Payment successful! Gateway approved", Some "txn_123456_success"),
      Some (mkmock (process_payment_answer Sample.approving)
                   (refund_payment_answer Sample.approving)
                   [ProcessPayment "123456" 2 "Late fees for 'Dune'"])),
     mkworld Sample.db0 (Sample.jan 14)).
Proof. reflexivity. Qed.

Example pay_late_fees_default_gateway :
  fst (pay_late_fees (G := mock_gateway) "123456" 1 None
         (mkworld Sample.db0 (Sample.jan 14)))
  = ((true, "Payment successful! Approved", Some "txn_auto"),
     Some (mkmock (Returned (true, "txn_auto", "Approved")) (Returned (true, "Refund OK"))
                  [ProcessPayment "123456" 2 "Late fees for 'Dune'"])).
Proof. reflexivity. Qed.

Example borrow_limit_of_five :
  let loan (n : Z) := mkrecord "123456" n (Sample.jan 1) (Sample.jan 15) None in
  let busy := mkmemdb [Sample.dune] (map loan [3; 4; 5; 6; 7]) true in
  borrow_book_by_patron "123456" 1 (mkworld busy (Sample.jan 2))
  = ((false, "You have reached the maximum borrowing limit of 5 books."),
     mkworld busy (Sample.jan 2)).
Proof. reflexivity. Qed.

Example parse_dt_examples :
  _parse_dt (VStr "2024-10-05") = Some (mkdatetime (mkdate 2024 10 5) 0 0 0 0)
  /\ _parse_dt (VStr "2024-10-05 12:30:45") = Some (mkdatetime (mkdate 2024 10 5) 12 30 45 0)
  /\ _parse_dt (VStr "not-a-date") = None
  /\ _parse_dt VNone = None.
Proof. repeat split. Qed.


(* ================================================================== *)
(** * Further properties of the service *)
(* ================================================================== *)

(** ** The fee calculator, tier by tier *)

(** What the calculator returns is either (0, 0) or a positive day count
    with the fee that goes with it. *)
Lemma _compute_fee_shape (due_dt end_dt : option datetime) :
  _compute_fee_from_due_and_end due_dt end_dt = (0%Q, 0)
  \/ (0 < snd (_compute_fee_from_due_and_end due_dt end_dt)
      /\ fst (_compute_fee_from_due_and_end due_dt end_dt)
         = Qred (half_dollars (snd (_compute_fee_from_due_and_end due_dt end_dt)) # 2)).
Proof.
  destruct due_dt as [due_dt | ], end_dt as [end_dt | ]; try (now left).
  rewrite _compute_fee_by_days. cbv zeta.
  destruct (Z.leb_spec (date_sub_days (date_of end_dt) (date_of due_dt)) 0);
    [now left | right]. cbn [fst snd]. split; [assumption | reflexivity].
Qed.

Lemma Qred_half_bounds (k : Z) :
  1 <= k <= 30 -> (1 # 2 <= Qred (k # 2) <= 15)%Q.
Proof.
  intros Hk. rewrite Qred_correct. unfold Qle; cbn [Qnum Qden]. lia.
Qed.

Lemma Qred_half_pos (k : Z) : 1 <= k -> (0 < Qred (k # 2))%Q.
Proof.
  intros Hk. rewrite Qred_correct. unfold Qlt; cbn [Qnum Qden]. lia.
Qed.

(** X1.  The three tiers in closed form: 0.50 a day for the first seven
    days overdue, then one more dollar a day, and 15.00 from the
    nineteenth day on. *)
Theorem fee_tiers (due_dt end_dt : datetime) :
  let days := date_sub_days (date_of end_dt) (date_of due_dt) in
  let fee := fst (_compute_fee_from_due_and_end (Some due_dt) (Some end_dt)) in
  (1 <= days <= 7 -> (fee == days # 2)%Q)
  /\ (7 <= days <= 18 -> (fee == inject_Z days - (7 # 2))%Q)
  /\ (19 <= days -> fee = 15%Q).
Proof.
  intros days fee. subst fee. rewrite _compute_fee_by_days. cbv zeta. fold days.
  repeat split; intros Hd;
    (replace (days <=? 0) with false by (symmetry; apply Z.leb_gt; lia));
    cbn [fst].
  - rewrite Qred_correct. unfold half_dollars.
    replace (Z.min (Z.min days 7 + 2 * Z.max (days - 7) 0) 30) with days by lia.
    reflexivity.
  - rewrite Qred_correct. unfold half_dollars.
    replace (Z.min (Z.min days 7 + 2 * Z.max (days - 7) 0) 30) with (2 * days - 7) by lia.
    unfold Qeq, Qminus, Qplus, Qopp, inject_Z; cbn [Qnum Qden]. lia.
  - unfold half_dollars.
    replace (Z.min (Z.min days 7 + 2 * Z.max (days - 7) 0) 30) with 30 by lia.
    reflexivity.
Qed.

Lemma fee_tiers_witness :
  (fst (_compute_fee_from_due_and_end (Some (Sample.jan 10)) (Some (Sample.jan 13)))
   == 3 # 2)%Q
  /\ (fst (_compute_fee_from_due_and_end (Some (Sample.jan 10)) (Some (Sample.jan 22)))
      == inject_Z 12 - (7 # 2))%Q
  /\ fst (_compute_fee_from_due_and_end (Some (Sample.jan 10)) (Some (Sample.jan 29)))
     = 15%Q.
Proof.
  split; [ | split].
  - apply (proj1 (fee_tiers (Sample.jan 10) (Sample.jan 13))). vm_compute. split; discriminate.
  - apply (proj1 (proj2 (fee_tiers (Sample.jan 10) (Sample.jan 22)))).
    vm_compute. split; discriminate.
  - apply (proj2 (proj2 (fee_tiers (Sample.jan 10) (Sample.jan 29)))).
    vm_compute. discriminate.
Defined.

(** X2.  A fee is charged exactly when the calendar date of the end
    timestamp is after that of the due timestamp, whatever the times of
    day; this is exactly when the day count returned is positive; the day
    count is never negative and a fee that is charged is at least
    0.50. *)
Theorem fee_charged_iff_after_due_date (due_dt end_dt : datetime) :
  valid_date (date_of due_dt) -> valid_date (date_of end_dt) ->
  let result := _compute_fee_from_due_and_end (Some due_dt) (Some end_dt) in
  ((0 < fst result)%Q <-> date_ltb (date_of due_dt) (date_of end_dt) = true)
  /\ ((0 < fst result)%Q <-> 0 < snd result)
  /\ 0 <= snd result
  /\ ((0 < fst result)%Q -> (1 # 2 <= fst result)%Q).
Proof.
  intros Hdue Hend result. subst result.
  pose proof (toordinal_lt _ _ Hdue Hend) as Hord.
  rewrite _compute_fee_by_days. cbv zeta.
  unfold date_sub_days in *.
  destruct (Z.leb_spec (toordinal (date_of end_dt) - toordinal (date_of due_dt)) 0)
    as [Hle | Hgt]; cbn [fst snd].
  - repeat split; try (intros Hpos; discriminate Hpos); try lia.
    + intros Hlt. apply Hord in Hlt. lia.
  - pose proof (half_dollars_range _ Hgt) as Hk.
    repeat split; try lia.
    + intros _. apply Hord. lia.
    + intros _. apply Qred_half_pos. lia.
    + intros _. apply Qred_half_pos. lia.
    + intros _. apply Qred_half_bounds. lia.
Qed.

Lemma fee_charged_iff_after_due_date_witness :
  (0 < fst (_compute_fee_from_due_and_end
              (Some (mkdatetime (mkdate 2024 2 29) 23 59 59 0))
              (Some (mkdatetime (mkdate 2024 3 1) 0 0 0 0))))%Q.
Proof.
  apply (proj1 (fee_charged_iff_after_due_date
                  (mkdatetime (mkdate 2024 2 29) 23 59 59 0)
                  (mkdatetime (mkdate 2024 3 1) 0 0 0 0)
                  ltac:(unfold valid_date; cbn; lia)
                  ltac:(unfold valid_date; cbn; lia))).
  reflexivity.
Defined.

Lemma _monetize_fee (due_dt end_dt : option datetime) :
  _monetize (fst (_compute_fee_from_due_and_end due_dt end_dt))
  = fst (_compute_fee_from_due_and_end due_dt end_dt).
Proof.
  destruct (_compute_fee_shape due_dt end_dt) as [Hzero | [_ Hfee]].
  - rewrite Hzero. reflexivity.
  - rewrite Hfee. apply _monetize_half. apply Qred_correct.
Qed.

(** ** The fee of one loan *)

Section FeeInfoProperties.

Context {DB C G : Type}.
Context `{Persistence DB} `{Clock C} `{PaymentGateway G} `{DatetimeParsing}.

(** X3.  [calculate_late_fee_for_book] never writes to the database.
    Without an active record for the book it answers [not_found] with a
    zero fee and does not read the clock.  With one, the status is [ok]
    with a positive day count and a fee between 0.50 and 15.00, or
    [not_overdue] with day count 0 and fee 0. *)
Theorem calculate_late_fee_for_book_statuses
    (patron_id : string) (book_id : Z) (w : world DB C) :
  let current := or_empty (get_patron_borrowed_books patron_id (w_db w)) in
  let info := fst (calculate_late_fee_for_book patron_id book_id w) in
  w_db (snd (calculate_late_fee_for_book patron_id book_id w)) = w_db w
  /\ (find_active current book_id = None ->
      calculate_late_fee_for_book patron_id book_id w
      = (mkfee_info (Some 0%Q) 0 None "not_found", w))
  /\ (find_active current book_id <> None ->
      exists fee,
        fi_fee_amount info = Some fee
        /\ ((fi_status info = "ok" /\ 0 < fi_days_overdue info
             /\ (1 # 2 <= fee <= 15)%Q)
            \/ (fi_status info = "not_overdue" /\ fi_days_overdue info = 0
                /\ fee = 0%Q))).
Proof.
  intros current info. subst current info.
  unfold calculate_late_fee_for_book, bind, query, ret, now.
  destruct (find_active _ book_id) as [active | ].
  2: { repeat split. intros Habsurd. now contradiction Habsurd. }
  destruct (datetime_now (w_clock w)) as [t c'].
  pose proof (_compute_fee_shape (due_datetime (bb_due_date active)) (Some t)) as Hshape.
  pose proof (_monetize_fee (due_datetime (bb_due_date active)) (Some t)) as Hround.
  destruct (_compute_fee_from_due_and_end (due_datetime (bb_due_date active)) (Some t))
    as [fee_amt days_overdue].
  cbn [fst snd w_db] in *.
  split; [reflexivity | split; [discriminate | ]].
  intros _. exists (_monetize fee_amt). split; [reflexivity | ].
  rewrite Hround.
  destruct Hshape as [Hzero | [Hpos Hfee]].
  - injection Hzero as -> ->. right. repeat split.
  - left. replace (days_overdue >? 0) with true
      by (symmetry; rewrite Z.gtb_ltb; apply Z.ltb_lt; exact Hpos).
    split; [reflexivity | split; [exact Hpos | ]].
    rewrite Hfee. apply Qred_half_bounds, half_dollars_range, Hpos.
Qed.

(** X4.  An active loan whose due date is missing or is text that no
    parser accepts is reported as not overdue, with fee 0, day count 0
    and a null due date. *)
Theorem calculate_late_fee_unreadable_due_date
    (patron_id : string) (book_id : Z) (w : world DB C) (active : borrowed_book) :
  find_active (or_empty (get_patron_borrowed_books patron_id (w_db w))) book_id
  = Some active ->
  due_datetime (bb_due_date active) = None ->
  fst (calculate_late_fee_for_book patron_id book_id w)
  = mkfee_info (Some 0%Q) 0 (Some None) "not_overdue".
Proof.
  intros Hactive Hdue.
  unfold calculate_late_fee_for_book, bind, query, ret, now.
  rewrite Hactive, Hdue.
  destruct (datetime_now (w_clock w)) as [t c']. reflexivity.
Qed.

(** ** Paying a fee *)

(** X5.  [pay_late_fees] never writes to the database, whatever the
    gateway answers. *)
Theorem pay_late_fees_keeps_database
    (patron_id : string) (book_id : Z) (payment_gateway : option G)
    (w : world DB C) :
  w_db (snd (pay_late_fees patron_id book_id payment_gateway w)) = w_db w.
Proof.
  unfold pay_late_fees.
  destruct (patron_id_rejected patron_id); [reflexivity | ].
  unfold bind at 1.
  pose proof (calculate_late_fee_for_book_db patron_id book_id w) as Hdb.
  destruct (calculate_late_fee_for_book patron_id book_id w) as [fee_info w1].
  cbn [snd] in Hdb.
  destruct (fi_fee_amount fee_info) as [fee | ]; [ | exact Hdb].
  destruct (Qle_bool fee 0); [exact Hdb | ].
  unfold bind, query, ret.
  destruct (get_book_by_id book_id (w_db w1)); [ | exact Hdb].
  destruct (process_payment _ _ _ _) as [answer g1].
  destruct answer as [[[success tid] msg] | e]; [destruct success | ]; exact Hdb.
Qed.

(** X6.  The exit [Unable to calculate late fees.] is dead: the fee
    information always carries a fee, and no call of [pay_late_fees]
    returns that message. *)
Theorem pay_late_fees_never_unable
    (patron_id : string) (book_id : Z) (payment_gateway : option G)
    (w : world DB C) :
  snd (fst (fst (fst (pay_late_fees patron_id book_id payment_gateway w))))
  <> "Unable to calculate late fees.".
Proof.
  unfold pay_late_fees.
  destruct (patron_id_rejected patron_id); [discriminate | ].
  unfold bind at 1.
  pose proof (calculate_late_fee_for_book_has_fee patron_id book_id w) as Hfee.
  destruct (calculate_late_fee_for_book patron_id book_id w) as [fee_info w1].
  cbn [fst] in Hfee.
  destruct (fi_fee_amount fee_info) as [fee | ]; [ | congruence].
  destruct (Qle_bool fee 0); [discriminate | ].
  unfold bind, query, ret.
  destruct (get_book_by_id book_id (w_db w1)); [ | discriminate].
  destruct (process_payment _ _ _ _) as [answer g1].
  destruct answer as [[[success tid] msg] | e]; [destruct success | ]; discriminate.
Qed.

(** X7.  When [pay_late_fees] reaches the gateway (well-formed patron ID,
    an overdue active loan, the book found), the amount it asks for is
    the fee of the loan, between 0.50 and 15.00, the description names
    the title, and the answer is passed on: an approval with the
    identifier of the gateway, a refusal without any identifier even if
    the gateway sent one, an exception as a processing error. *)
Theorem pay_late_fees_gateway_stage
    (patron_id : string) (book_id : Z) (payment_gateway : option G)
    (w : world DB C) (active : borrowed_book) (book : book) :
  six_digits patron_id ->
  find_active (or_empty (get_patron_borrowed_books patron_id (w_db w))) book_id
  = Some active ->
  get_book_by_id book_id (w_db w) = Some book ->
  let (t, c1) := datetime_now (w_clock w) in
  let '(fee, days) :=
    _compute_fee_from_due_and_end (due_datetime (bb_due_date active)) (Some t) in
  0 < days ->
  (1 # 2 <= fee <= 15)%Q
  /\ pay_late_fees patron_id book_id payment_gateway w
     = (let (answer, g1) :=
          process_payment patron_id fee ("Late fees for '" ++ book_title book ++ "'")
                          (gateway_or_default payment_gateway) in
        (match answer with
         | Returned (true, tid, msg) => (true, "Payment successful! " ++ msg, Some tid)
         | Returned (false, _, msg) => (false, "Payment failed: " ++ msg, None)
         | Raised e => (false, "Payment processing error: " ++ e, None)
         end, Some g1),
        mkworld (w_db w) c1).
Proof.
  intros Hid Hactive Hbook. apply patron_id_rejected_false_iff in Hid.
  unfold pay_late_fees, calculate_late_fee_for_book. rewrite Hid.
  unfold bind, query, ret, now. rewrite Hactive.
  destruct (datetime_now (w_clock w)) as [t c1].
  pose proof (_compute_fee_shape (due_datetime (bb_due_date active)) (Some t)) as Hshape.
  pose proof (_monetize_fee (due_datetime (bb_due_date active)) (Some t)) as Hround.
  destruct (_compute_fee_from_due_and_end (due_datetime (bb_due_date active)) (Some t))
    as [fee days].
  cbn [fst snd] in *. intros Hdays.
  destruct Hshape as [Hzero | [_ Hfee]]; [injection Hzero as _ ->; lia | ].
  pose proof (Qred_half_bounds _ (half_dollars_range _ Hdays)) as Hbounds.
  rewrite <- Hfee in Hbounds. split; [exact Hbounds | ].
  cbn [fi_fee_amount w_db]. rewrite Hround.
  replace (Qle_bool fee 0) with false.
  - cbn [w_db]. rewrite Hbook. fold (gateway_or_default payment_gateway).
    destruct (process_payment _ _ _ _) as [answer g1].
    destruct answer as [[[success tid] msg] | e]; [destruct success | ]; reflexivity.
  - symmetry. apply not_true_is_false. rewrite Qle_bool_iff. intros Hle.
    destruct Hbounds as [Hhalf _].
    assert (Habsurd : (1 # 2 <= 0)%Q) by (eapply Qle_trans; eassumption).
    apply Habsurd. reflexivity.
Qed.

(** X8.  Paying for a book the patron has no active loan of fails with
    [No late fees to pay for this book.]: nothing is written, the clock
    is not read and the gateway is neither built nor called. *)
Theorem pay_late_fees_without_loan
    (patron_id : string) (book_id : Z) (payment_gateway : option G)
    (w : world DB C) :
  six_digits patron_id ->
  find_active (or_empty (get_patron_borrowed_books patron_id (w_db w))) book_id = None ->
  pay_late_fees patron_id book_id payment_gateway w
  = (((false, "No late fees to pay for this book.", None), payment_gateway), w).
Proof.
  intros Hid Hnone. apply patron_id_rejected_false_iff in Hid.
  unfold pay_late_fees, calculate_late_fee_for_book. rewrite Hid.
  unfold bind, query, ret. rewrite Hnone. reflexivity.
Qed.

End FeeInfoProperties.

(** ** Returning a book *)

Section ReturnProperties.

Context {DB C : Type}.
Context `{Persistence DB} `{Clock C} `{DatetimeParsing}.

(** X9.  A return that goes through reports a late fee exactly when the
    calendar date of the return is after the due date of the loan,
    whatever the times of day; the fee shown is the one of the formula
    for the days between the two dates. *)
Theorem return_reports_fee_iff_after_due
    (patron_id : string) (book_id : Z) (w : world DB C)
    (book : book) (active : borrowed_book) (due : datetime) :
  six_digits patron_id ->
  get_book_by_id book_id (w_db w) = Some book ->
  find_active (or_empty (get_patron_borrowed_books patron_id (w_db w))) book_id
  = Some active ->
  due_datetime (bb_due_date active) = Some due ->
  valid_date (date_of due) ->
  let (end_dt, c1) := datetime_now (w_clock w) in
  let (recorded, db1) :=
    update_borrow_record_return_date patron_id book_id end_dt (w_db w) in
  let (updated, db2) := update_book_availability book_id 1 db1 in
  let days := date_sub_days (date_of end_dt) (date_of due) in
  valid_date (date_of end_dt) -> recorded = true -> updated = true ->
  return_book_by_patron patron_id book_id w
  = ((true,
      if date_ltb (date_of due) (date_of end_dt) then
        "Returned " ++ PyStr.dquote ++ book_title book ++ PyStr.dquote
        ++ ". Late fee: $" ++ format_2f (_monetize (fee_formula days))
        ++ " (overdue by " ++ PyStr.of_int days ++ " day(s))."
      else
        "Returned " ++ PyStr.dquote ++ book_title book ++ PyStr.dquote
        ++ " on time. No late fee."),
     mkworld db2 c1).
Proof.
  intros Hid Hbook Hactive Hdue Hvalid_due.
  apply patron_id_rejected_false_iff in Hid.
  unfold return_book_by_patron, bind, query, command, now, ret.
  rewrite Hid, Hbook, Hactive, Hdue.
  destruct (datetime_now (w_clock w)) as [end_dt c1].
  rewrite _compute_fee_by_days. cbv zeta. unfold date_sub_days.
  destruct (Z.leb_spec (toordinal (date_of end_dt) - toordinal (date_of due)) 0)
    as [Hle | Hgt];
    cbn [w_db w_clock];
    destruct (update_borrow_record_return_date patron_id book_id end_dt (w_db w))
      as [recorded db1];
    destruct (update_book_availability book_id 1 db1) as [updated db2] eqn:Hupdate;
    intros Hvalid_end -> ->;
    pose proof (toordinal_lt _ _ Hvalid_due Hvalid_end) as Hord;
    cbn [negb w_db w_clock]; rewrite Hupdate; cbn [negb].
  - replace (date_ltb (date_of due) (date_of end_dt)) with false; [reflexivity | ].
    symmetry. apply not_true_is_false. intros Hlt. apply Hord in Hlt. lia.
  - replace (date_ltb (date_of due) (date_of end_dt)) with true
      by (symmetry; apply Hord; lia).
    pose proof (Qred_half_pos _ (proj1 (half_dollars_range _ Hgt))) as Hpos.
    replace (Qle_bool (Qred (half_dollars (toordinal (date_of end_dt)
                                           - toordinal (date_of due)) # 2)) 0)
      with false.
    + cbn [negb].
      rewrite (_monetize_half _ _ (fee_formula_half_dollars _)). reflexivity.
    + symmetry. apply not_true_is_false. rewrite Qle_bool_iff.
      intros Hle. exact (Qlt_not_le _ _ Hpos Hle).
Qed.

(** X10.  A loan whose due date is missing or is text that no parser
    accepts is returned as on time: with both writes done the call
    succeeds with the message of a return without fee. *)
Theorem return_with_unreadable_due_date
    (patron_id : string) (book_id : Z) (w : world DB C)
    (book : book) (active : borrowed_book) :
  six_digits patron_id ->
  get_book_by_id book_id (w_db w) = Some book ->
  find_active (or_empty (get_patron_borrowed_books patron_id (w_db w))) book_id
  = Some active ->
  due_datetime (bb_due_date active) = None ->
  let (end_dt, c1) := datetime_now (w_clock w) in
  let (recorded, db1) :=
    update_borrow_record_return_date patron_id book_id end_dt (w_db w) in
  let (updated, db2) := update_book_availability book_id 1 db1 in
  recorded = true -> updated = true ->
  return_book_by_patron patron_id book_id w
  = ((true, "Returned " ++ PyStr.dquote ++ book_title book ++ PyStr.dquote
            ++ " on time. No late fee."),
     mkworld db2 c1).
Proof.
  intros Hid Hbook Hactive Hdue.
  apply patron_id_rejected_false_iff in Hid.
  unfold return_book_by_patron, bind, query, command, now, ret.
  rewrite Hid, Hbook, Hactive, Hdue.
  destruct (datetime_now (w_clock w)) as [end_dt c1].
  cbn [_compute_fee_from_due_and_end w_db w_clock].
  destruct (update_borrow_record_return_date patron_id book_id end_dt (w_db w))
    as [recorded db1].
  destruct (update_book_availability book_id 1 db1) as [updated db2] eqn:Hupdate.
  intros -> ->. cbn [negb w_db w_clock]. rewrite Hupdate. reflexivity.
Qed.

End ReturnProperties.

(** ** The status report of a patron *)

Lemma sum_late_fees_app (entries : list current_borrow) (e : current_borrow) :
  (sum_late_fees (entries ++ [e]) == sum_late_fees entries + cb_late_fee e)%Q.
Proof.
  induction entries as [ | x rest IH]; cbn [app sum_late_fees fold_right].
  - ring.
  - fold (sum_late_fees (rest ++ [e])). fold (sum_late_fees rest).
    rewrite IH. ring.
Qed.

Section StatusReportProperties.

Context {DB C : Type}.
Context `{Persistence DB} `{Clock C} `{DatetimeParsing}.

Lemma current_borrows_loop_ids (current : list borrowed_book) :
  forall total_fees acc (w : world DB C),
    map cb_book_id (snd (fst (current_borrows_loop current total_fees acc w)))
    = (map cb_book_id acc ++ map bb_book_id current)%list
    /\ map cb_title (snd (fst (current_borrows_loop current total_fees acc w)))
       = (map cb_title acc ++ map bb_title current)%list.
Proof.
  induction current as [ | r rest IH]; intros total_fees acc w.
  - cbn. now rewrite !app_nil_r.
  - cbn [current_borrows_loop]. unfold bind, now.
    destruct (datetime_now (w_clock w)) as [t c'].
    destruct (_compute_fee_from_due_and_end (due_datetime (bb_due_date r)) (Some t))
      as [fee_amt days_overdue].
    destruct (IH (total_fees + fee_amt)%Q
                 (acc ++ [mkcurrent_borrow (bb_book_id r) (bb_title r)
                            (option_map strftime_ymd (due_datetime (bb_due_date r)))
                            days_overdue (_monetize fee_amt)])%list
                 (mkworld (w_db w) c')) as [IHid IHtitle].
    rewrite IHid, IHtitle, !map_app, <- !app_assoc. split; reflexivity.
Qed.

Lemma current_borrows_loop_totals (current : list borrowed_book) :
  forall total_fees acc (w : world DB C) (K : Z),
    (total_fees == K # 2)%Q ->
    0 <= K <= 30 * Z.of_nat (length acc) ->
    (total_fees == sum_late_fees acc)%Q ->
    Forall entry_consistent acc ->
    let result := fst (current_borrows_loop current total_fees acc w) in
    exists K',
      (fst result == K' # 2)%Q
      /\ 0 <= K' <= 30 * Z.of_nat (length (snd result))
      /\ (fst result == sum_late_fees (snd result))%Q
      /\ Forall entry_consistent (snd result).
Proof.
  induction current as [ | r rest IH]; intros total_fees acc w K Hhalf HK Hsum Hall.
  - cbn. exists K. auto.
  - cbn [current_borrows_loop]. unfold bind, now.
    destruct (datetime_now (w_clock w)) as [t c'].
    pose proof (_compute_fee_shape (due_datetime (bb_due_date r)) (Some t)) as Hshape.
    pose proof (_monetize_fee (due_datetime (bb_due_date r)) (Some t)) as Hround.
    destruct (_compute_fee_from_due_and_end (due_datetime (bb_due_date r)) (Some t))
      as [fee_amt days_overdue].
    cbn [fst snd] in Hshape, Hround.
    assert (Hfee : exists k, 0 <= k <= 30 /\ (fee_amt == k # 2)%Q
                             /\ entry_consistent
                                  (mkcurrent_borrow (bb_book_id r) (bb_title r)
                                     (option_map strftime_ymd
                                        (due_datetime (bb_due_date r)))
                                     days_overdue (_monetize fee_amt))).
    { rewrite Hround. destruct Hshape as [Hzero | [Hpos Hfee]].
      - injection Hzero as -> ->. exists 0. repeat split; try lia.
        left. split; reflexivity.
      - pose proof (half_dollars_range _ Hpos) as Hrange.
        exists (half_dollars days_overdue). repeat split; try lia.
        + rewrite Hfee. apply Qred_correct.
        + right. cbn [cb_days_overdue cb_late_fee]. split; [exact Hpos | ].
          rewrite Hfee. apply Qred_half_bounds. exact Hrange. }
    destruct Hfee as (k & Hk & Hfee & Hentry).
    apply (IH _ _ _ (K + k)).
    + rewrite Hhalf, Hfee. unfold Qeq, Qplus; cbn [Qnum Qden]. lia.
    + rewrite length_app. cbn [length]. lia.
    + rewrite sum_late_fees_app. cbn [cb_late_fee].
      rewrite Hround, Hsum. reflexivity.
    + apply Forall_app. split; [exact Hall | ]. constructor; [exact Hentry | constructor].
Qed.

(** The report of a well-formed patron ID, step by step. *)
Lemma get_patron_status_report_valid (patron_id : string) (w : world DB C) :
  six_digits patron_id ->
  get_patron_status_report patron_id w
  = (let '((total_fees, entries), w') :=
       current_borrows_loop
         (or_empty (get_patron_borrowed_books patron_id (w_db w))) 0%Q [] w in
     (mkreport patron_id entries (Z.of_nat (length entries)) (_monetize total_fees)
               match fetch_borrow_history patron_id (w_db w') with
               | Returned rows => map history_of_row rows
               | Raised _ => []
               end
               "ok", w')).
Proof.
  intros Hid. apply patron_id_rejected_false_iff in Hid.
  unfold get_patron_status_report. rewrite Hid.
  unfold bind at 1. unfold query at 1. unfold bind at 1.
  destruct (current_borrows_loop _ 0%Q [] w) as [[total_fees entries] w'].
  reflexivity.
Qed.

(** X11.  For a well-formed patron ID the report has status [ok], echoes
    the ID, lists one entry per active loan, in the order of
    [get_patron_borrowed_books] and with the same book identifiers and
    titles, counts them, and leaves the database as it is. *)
Theorem status_report_lists_active_loans (patron_id : string) (w : world DB C) :
  six_digits patron_id ->
  let current := or_empty (get_patron_borrowed_books patron_id (w_db w)) in
  let r := fst (get_patron_status_report patron_id w) in
  r_status r = "ok"
  /\ r_patron_id r = patron_id
  /\ r_current_borrow_count r = Z.of_nat (length current)
  /\ map cb_book_id (r_current_borrows r) = map bb_book_id current
  /\ map cb_title (r_current_borrows r) = map bb_title current
  /\ w_db (snd (get_patron_status_report patron_id w)) = w_db w.
Proof.
  intros Hid current r. subst r.
  pose proof (current_borrows_loop_db current 0%Q [] w) as Hdb.
  pose proof (current_borrows_loop_length current 0%Q [] w) as Hlen.
  destruct (current_borrows_loop_ids current 0%Q [] w) as [Hids Htitles].
  subst current.
  rewrite (get_patron_status_report_valid patron_id w Hid).
  destruct (current_borrows_loop _ 0%Q [] w) as [[total_fees entries] w'].
  cbn [fst snd r_status r_patron_id r_current_borrow_count r_current_borrows] in *.
  cbn [map app length Nat.add] in Hids, Htitles, Hlen.
  repeat split; try assumption.
  f_equal. exact Hlen.
Qed.

(** X12.  In the report of a well-formed patron ID the total of the late
    fees is the sum of the fees of the entries, it lies between 0 and 15
    times their number, and every entry either has fee 0 and day count 0
    or a positive day count and a fee between 0.50 and 15.00. *)
Theorem status_report_total_is_sum (patron_id : string) (w : world DB C) :
  six_digits patron_id ->
  let r := fst (get_patron_status_report patron_id w) in
  (r_total_late_fees r == sum_late_fees (r_current_borrows r))%Q
  /\ (0 <= r_total_late_fees r <= 15 * inject_Z (r_current_borrow_count r))%Q
  /\ Forall entry_consistent (r_current_borrows r).
Proof.
  intros Hid r. subst r.
  destruct (current_borrows_loop_totals
              (or_empty (get_patron_borrowed_books patron_id (w_db w))) 0%Q [] w 0
              ltac:(reflexivity) ltac:(cbn; lia) ltac:(reflexivity) ltac:(constructor))
    as (K & Hhalf & HK & Hsum & Hall).
  rewrite (get_patron_status_report_valid patron_id w Hid).
  destruct (current_borrows_loop _ 0%Q [] w) as [[total_fees entries] w'].
  cbn [fst snd r_total_late_fees r_current_borrows r_current_borrow_count] in *.
  rewrite (_monetize_half K total_fees Hhalf).
  repeat split.
  - rewrite Qred_correct, <- Hhalf. exact Hsum.
  - rewrite Qred_correct. unfold Qle; cbn [Qnum Qden]. lia.
  - rewrite Qred_correct. unfold Qle, Qmult, inject_Z; cbn [Qnum Qden]. lia.
  - exact Hall.
Qed.

End StatusReportProperties.

(** ** Text helpers *)

Lemma lstrip_fixed (s : string) : PyStr.lstrip (PyStr.lstrip s) = PyStr.lstrip s.
Proof.
  induction s as [ | c t IH]; [reflexivity | ].
  cbn [PyStr.lstrip]. destruct (PyStr.is_space c) eqn:Hc; [exact IH | ].
  cbn [PyStr.lstrip]. now rewrite Hc.
Qed.

Lemma rstrip_cons (c : ascii) (t : string) :
  PyStr.rstrip (String c t)
  = match PyStr.rstrip t with
    | EmptyString => if PyStr.is_space c then EmptyString else String c EmptyString
    | String d u => String c (String d u)
    end.
Proof. cbn [PyStr.rstrip]. destruct (PyStr.rstrip t); reflexivity. Qed.

Lemma rstrip_fixed (s : string) : PyStr.rstrip (PyStr.rstrip s) = PyStr.rstrip s.
Proof.
  induction s as [ | c t IH]; [reflexivity | ].
  rewrite rstrip_cons. destruct (PyStr.rstrip t) as [ | d u] eqn:Ht.
  - destruct (PyStr.is_space c) eqn:Hc; [reflexivity | ].
    rewrite rstrip_cons. cbn [PyStr.rstrip]. now rewrite Hc.
  - rewrite rstrip_cons, IH. reflexivity.
Qed.

(** Stripping on the right keeps a text free of leading whitespace. *)
Lemma lstrip_rstrip (s : string) :
  PyStr.lstrip s = s -> PyStr.lstrip (PyStr.rstrip s) = PyStr.rstrip s.
Proof.
  destruct s as [ | c t]; [reflexivity | ].
  cbn [PyStr.lstrip]. destruct (PyStr.is_space c) eqn:Hc.
  - intros Hshort. exfalso.
    assert (Hlen : forall u, (String.length (PyStr.lstrip u) <= String.length u)%nat).
    { induction u as [ | d u IHu]; cbn [PyStr.lstrip String.length]; [lia | ].
      destruct (PyStr.is_space d); cbn [String.length]; lia. }
    specialize (Hlen t). rewrite Hshort in Hlen. cbn [String.length] in Hlen. lia.
  - intros _. rewrite rstrip_cons.
    destruct (PyStr.rstrip t); rewrite ?Hc; cbn [PyStr.lstrip]; now rewrite Hc.
Qed.

(** [strip] leaves a stripped text as it is. *)
Lemma strip_fixed (s : string) : PyStr.strip (PyStr.strip s) = PyStr.strip s.
Proof.
  unfold PyStr.strip.
  rewrite (lstrip_rstrip (PyStr.lstrip s) (lstrip_fixed s)).
  apply rstrip_fixed.
Qed.

Ltac each_char c :=
  destruct c as [[ | ] [ | ] [ | ] [ | ] [ | ] [ | ] [ | ] [ | ]].

Lemma lower_char_fixed (c : ascii) : lower_char (lower_char c) = lower_char c.
Proof. each_char c; reflexivity. Qed.

Lemma is_space_lower_char (c : ascii) :
  PyStr.is_space (lower_char c) = PyStr.is_space c.
Proof. each_char c; reflexivity. Qed.

Lemma is_digit_lower_char (c : ascii) :
  PyStr.is_digit (lower_char c) = PyStr.is_digit c.
Proof. each_char c; reflexivity. Qed.

Lemma digit_lower_char (c : ascii) : PyStr.is_digit c = true -> lower_char c = c.
Proof. each_char c; (reflexivity || discriminate). Qed.

Lemma digit_not_space (c : ascii) : PyStr.is_digit c = true -> PyStr.is_space c = false.
Proof. each_char c; (reflexivity || discriminate). Qed.

Lemma str_lower_fixed (s : string) : str_lower (str_lower s) = str_lower s.
Proof.
  induction s as [ | c t IH]; [reflexivity | ].
  cbn [str_lower]. now rewrite lower_char_fixed, IH.
Qed.

Lemma lstrip_lower (s : string) : PyStr.lstrip (str_lower s) = str_lower (PyStr.lstrip s).
Proof.
  induction s as [ | c t IH]; [reflexivity | ].
  cbn [str_lower PyStr.lstrip]. rewrite is_space_lower_char.
  destruct (PyStr.is_space c); [exact IH | reflexivity].
Qed.

Lemma rstrip_lower (s : string) : PyStr.rstrip (str_lower s) = str_lower (PyStr.rstrip s).
Proof.
  induction s as [ | c t IH]; [reflexivity | ].
  cbn [str_lower]. rewrite !rstrip_cons, IH, is_space_lower_char.
  destruct (PyStr.rstrip t); cbn [str_lower]; [ | reflexivity].
  destruct (PyStr.is_space c); reflexivity.
Qed.

(** Lower-casing and stripping commute. *)
Lemma strip_lower (s : string) : PyStr.strip (str_lower s) = str_lower (PyStr.strip s).
Proof. unfold PyStr.strip. now rewrite lstrip_lower, rstrip_lower. Qed.

Lemma truthy_lower (s : string) : PyStr.truthy (str_lower s) = PyStr.truthy s.
Proof. destruct s; reflexivity. Qed.

Lemma digits_only_lower (s : string) : digits_only (str_lower s) = digits_only s.
Proof.
  induction s as [ | c t IH]; [reflexivity | ].
  cbn [str_lower digits_only]. rewrite is_digit_lower_char, IH.
  destruct (PyStr.is_digit c) eqn:Hc; [ | reflexivity].
  now rewrite (digit_lower_char c Hc).
Qed.

Lemma digits_only_lstrip (s : string) : digits_only (PyStr.lstrip s) = digits_only s.
Proof.
  induction s as [ | c t IH]; [reflexivity | ].
  cbn [PyStr.lstrip]. destruct (PyStr.is_space c) eqn:Hc; [ | reflexivity].
  cbn [digits_only]. destruct (PyStr.is_digit c) eqn:Hd; [ | exact IH].
  apply digit_not_space in Hd. congruence.
Qed.

Lemma digits_only_rstrip (s : string) : digits_only (PyStr.rstrip s) = digits_only s.
Proof.
  induction s as [ | c t IH]; [reflexivity | ].
  rewrite rstrip_cons. cbn [digits_only]. rewrite <- IH.
  destruct (PyStr.rstrip t) as [ | d u].
  - destruct (PyStr.is_space c) eqn:Hc; cbn [digits_only]; [ | reflexivity].
    destruct (PyStr.is_digit c) eqn:Hd; [ | reflexivity].
    apply digit_not_space in Hd. congruence.
  - reflexivity.
Qed.

(** Stripping removes no digit. *)
Lemma digits_only_strip (s : string) : digits_only (PyStr.strip s) = digits_only s.
Proof. unfold PyStr.strip. now rewrite digits_only_rstrip, digits_only_lstrip. Qed.

Lemma filter_none {A} (p : A -> bool) (l : list A) :
  (forall x, p x = false) -> filter p l = [].
Proof.
  intros Hp. induction l as [ | x rest IH]; [reflexivity | ].
  cbn [filter]. now rewrite Hp.
Qed.

Lemma filter_length_le {A} (p : A -> bool) (l : list A) :
  (length (filter p l) <= length l)%nat.
Proof.
  induction l as [ | x rest IH]; cbn [filter length]; [lia | ].
  destruct (p x); cbn [length]; lia.
Qed.

(** ** Adding a book, continued *)

Section AddBookProperties.

Context {DB C : Type} `{Persistence DB}.

(** X13.  For a title, an author and an ISBN given as ASCII text,
    [add_book_to_catalog] succeeds exactly when the stripped title is not
    empty and has at most 200 characters, the stripped author is not
    empty and has at most 100, the ISBN has 13 characters, the copy
    count is positive, the catalog holds no book with this ISBN, and
    [insert_book] reports success. *)
Theorem add_book_to_catalog_succeeds_iff
    (title author isbn : string) (total : Z) (w : world DB C) :
  is_ascii title = true -> is_ascii author = true -> is_ascii isbn = true ->
  fst (fst (add_book_to_catalog title author isbn total w)) = true
  <-> (PyStr.strip title <> EmptyString
       /\ PyStr.len (PyStr.strip title) <= 200
       /\ PyStr.strip author <> EmptyString
       /\ PyStr.len (PyStr.strip author) <= 100
       /\ String.length isbn = 13%nat
       /\ 0 < total
       /\ get_book_by_isbn isbn (w_db w) = None
       /\ fst (insert_book (PyStr.strip title) (PyStr.strip author) isbn total total
                           (w_db w)) = true).
Proof.
  intros _ _ _. split.
  - intros Hok.
    assert (Hno : ~ (PyStr.strip title = EmptyString
                     \/ 200 < PyStr.len (PyStr.strip title)
                     \/ PyStr.strip author = EmptyString
                     \/ 100 < PyStr.len (PyStr.strip author)
                     \/ String.length isbn <> 13%nat
                     \/ total <= 0
                     \/ get_book_by_isbn isbn (w_db w) <> None)).
    { intros Hbad.
      destruct (add_book_to_catalog_rejects title author isbn total w Hbad) as [Hfalse _].
      congruence. }
    assert (Ht : PyStr.strip title <> EmptyString) by tauto.
    assert (Htl : PyStr.len (PyStr.strip title) <= 200) by lia.
    assert (Ha : PyStr.strip author <> EmptyString) by tauto.
    assert (Hal : PyStr.len (PyStr.strip author) <= 100) by lia.
    assert (Hi : String.length isbn = 13%nat).
    { destruct (Nat.eq_dec (String.length isbn) 13); tauto. }
    assert (Hc : 0 < total) by lia.
    assert (He : get_book_by_isbn isbn (w_db w) = None).
    { destruct (get_book_by_isbn isbn (w_db w)) eqn:Hfound; [ | reflexivity].
      exfalso. apply Hno. repeat right. discriminate. }
    repeat split; try assumption.
    pose proof (add_book_to_catalog_accepts title author isbn total w
                  Ht Htl Ha Hal Hi Hc He) as Hrun.
    destruct (insert_book _ _ _ _ _ _) as [inserted db1].
    rewrite Hrun in Hok. cbn [fst] in *. destruct inserted; [reflexivity | discriminate].
  - intros (Ht & Htl & Ha & Hal & Hi & Hc & He & Hins).
    pose proof (add_book_to_catalog_accepts title author isbn total w
                  Ht Htl Ha Hal Hi Hc He) as Hrun.
    destruct (insert_book _ _ _ _ _ _) as [inserted db1].
    rewrite Hrun. cbn [fst] in *. now rewrite Hins.
Qed.

(** X14.  Whitespace around the title and the author does not count:
    adding a book behaves as adding it with both texts stripped. *)
Theorem add_book_to_catalog_ignores_padding
    (title author isbn : string) (total : Z) (w : world DB C) :
  add_book_to_catalog title author isbn total w
  = add_book_to_catalog (PyStr.strip title) (PyStr.strip author) isbn total w.
Proof.
  assert (Hblank : forall s,
             negb (PyStr.truthy s) || negb (PyStr.truthy (PyStr.strip s))
             = negb (PyStr.truthy (PyStr.strip s))
               || negb (PyStr.truthy (PyStr.strip (PyStr.strip s)))).
  { intros s. rewrite strip_fixed. destruct s as [ | c t]; [reflexivity | ].
    cbn [PyStr.truthy negb orb]. now rewrite orb_diag. }
  unfold add_book_to_catalog.
  rewrite <- !Hblank, !strip_fixed. reflexivity.
Qed.

End AddBookProperties.

(** ** The catalog page and the search *)

Section CatalogProperties.

Context {DB C : Type} `{Catalog DB}.

(** The searches of a term that is not blank, branch by branch. *)
Lemma search_books_in_catalog_steps
    (term : string) (search_type : option string) (w : world DB C) :
  PyStr.strip term <> EmptyString ->
  search_books_in_catalog (Some term) search_type w
  = (let stype := str_lower (PyStr.strip (str_or_empty search_type)) in
     let books := or_empty (get_all_books (w_db w)) in
     map format_book
       (if String.eqb stype "isbn" then
          filter (isbn_matches (digits_only (PyStr.strip term))) books
        else if String.eqb stype "title" || String.eqb stype "author" then
          filter (field_matches stype (str_lower (PyStr.strip term))) books
        else
          filter (title_or_author_matches (str_lower (PyStr.strip term))) books),
     w).
Proof.
  intros Hterm. unfold search_books_in_catalog.
  replace (PyStr.truthy (PyStr.strip term)) with true.
  - reflexivity.
  - symmetry. destruct (PyStr.truthy (PyStr.strip term)) eqn:Ht; [reflexivity | ].
    apply truthy_false_iff in Ht. contradiction.
Qed.

Lemma search_books_in_catalog_blank
    (term : string) (search_type : option string) (w : world DB C) :
  PyStr.strip term = EmptyString ->
  search_books_in_catalog (Some term) search_type w = ([], w).
Proof.
  intros Hblank. unfold search_books_in_catalog. rewrite Hblank. reflexivity.
Qed.

(** X15.  A search without a term, or with a term of whitespace only,
    finds nothing, whatever the search type and the catalog. *)
Theorem search_blank_term
    (search_term search_type : option string) (w : world DB C) :
  PyStr.strip (str_or_empty search_term) = EmptyString ->
  search_books_in_catalog search_term search_type w = ([], w).
Proof.
  intros Hblank.
  destruct search_term as [term | ]; [ | reflexivity].
  apply search_books_in_catalog_blank. exact Hblank.
Qed.

(** X16.  A search by ISBN sees only the digits of the term: two terms
    of ASCII text with the same digits find the same books, so hyphens
    and spaces in the term do not matter, and a term of ASCII text
    without any digit finds nothing. *)
Theorem search_isbn_by_digits (term1 term2 : string) (w : world DB C) :
  is_ascii term1 = true -> is_ascii term2 = true ->
  PyStr.strip term1 <> EmptyString ->
  PyStr.strip term2 <> EmptyString ->
  (digits_only term1 = digits_only term2 ->
   search_books_in_catalog (Some term1) (Some "isbn") w
   = search_books_in_catalog (Some term2) (Some "isbn") w)
  /\ (digits_only term1 = EmptyString ->
      search_books_in_catalog (Some term1) (Some "isbn") w = ([], w)).
Proof.
  intros _ _ H1 H2.
  rewrite !search_books_in_catalog_steps by assumption.
  cbn [str_or_empty]. cbv zeta.
  change (String.eqb (str_lower (PyStr.strip "isbn")) "isbn") with true.
  cbv iota. rewrite !digits_only_strip. split.
  - intros ->. reflexivity.
  - intros ->. rewrite filter_none; [reflexivity | ].
    intros b. unfold isbn_matches.
    destruct (digits_only (str_or_empty (row_isbn b))); reflexivity.
Qed.

(** X17.  Searching ignores the case of the term, for every search type:
    two terms that agree once lower-cased find the same books. *)
Theorem search_ignores_case
    (term1 term2 : string) (search_type : option string) (w : world DB C) :
  str_lower term1 = str_lower term2 ->
  search_books_in_catalog (Some term1) search_type w
  = search_books_in_catalog (Some term2) search_type w.
Proof.
  intros Hsame.
  assert (Hstrip : str_lower (PyStr.strip term1) = str_lower (PyStr.strip term2))
    by (rewrite <- !strip_lower; now rewrite Hsame).
  assert (Hdigits : digits_only (PyStr.strip term1) = digits_only (PyStr.strip term2)).
  { rewrite <- (digits_only_lower (PyStr.strip term1)),
            <- (digits_only_lower (PyStr.strip term2)). now rewrite Hstrip. }
  assert (Htruthy : PyStr.truthy (PyStr.strip term1) = PyStr.truthy (PyStr.strip term2)).
  { rewrite <- (truthy_lower (PyStr.strip term1)),
            <- (truthy_lower (PyStr.strip term2)). now rewrite Hstrip. }
  unfold search_books_in_catalog. rewrite Htruthy, Hstrip, Hdigits. reflexivity.
Qed.

(** X18.  The search type is read without its case and without the
    whitespace around it, and a missing type is the empty one. *)
Theorem search_type_normalised
    (search_term : option string) (search_type : string) (w : world DB C) :
  search_books_in_catalog search_term (Some search_type) w
  = search_books_in_catalog search_term
      (Some (str_lower (PyStr.strip search_type))) w
  /\ search_books_in_catalog search_term None w
     = search_books_in_catalog search_term (Some EmptyString) w.
Proof.
  split; [ | reflexivity].
  unfold search_books_in_catalog. cbn [str_or_empty].
  rewrite strip_lower, strip_fixed, str_lower_fixed. reflexivity.
Qed.

Lemma In_map_filter {A B} (f : A -> B) (p : A -> bool) (l : list A) (y : B) :
  In y (map f (filter p l)) <-> exists x, In x l /\ p x = true /\ f x = y.
Proof.
  rewrite in_map_iff. split.
  - intros (x & Hfx & Hin). apply filter_In in Hin. exists x. tauto.
  - intros (x & Hin & Hp & Hfx). exists x. split; [exact Hfx | ].
    apply filter_In. tauto.
Qed.

(** X19.  With a search type, given as ASCII text, other than [isbn],
    [title] and [author] the search looks in both the title and the
    author: it finds exactly the books a title search or an author
    search of the same term finds. *)
Theorem search_fallback_is_title_or_author
    (term search_type : string) (w : world DB C) (d : display_book) :
  is_ascii search_type = true ->
  let stype := str_lower (PyStr.strip search_type) in
  stype <> "isbn" -> stype <> "title" -> stype <> "author" ->
  In d (fst (search_books_in_catalog (Some term) (Some search_type) w))
  <-> In d (fst (search_books_in_catalog (Some term) (Some "title") w))
      \/ In d (fst (search_books_in_catalog (Some term) (Some "author") w)).
Proof.
  intros _ stype Hisbn Htitle Hauthor. subst stype.
  destruct (string_dec (PyStr.strip term) EmptyString) as [Hblank | Hterm].
  { rewrite !search_books_in_catalog_blank by exact Hblank. cbn. tauto. }
  rewrite !search_books_in_catalog_steps by exact Hterm.
  cbn [str_or_empty fst]. cbv zeta.
  apply String.eqb_neq in Hisbn, Htitle, Hauthor.
  rewrite Hisbn, Htitle, Hauthor. cbn [orb].
  change (String.eqb (str_lower (PyStr.strip "title")) "isbn") with false.
  change (String.eqb (str_lower (PyStr.strip "author")) "isbn") with false.
  change (String.eqb (str_lower (PyStr.strip "title")) "title") with true.
  change (String.eqb (str_lower (PyStr.strip "author")) "title") with false.
  change (String.eqb (str_lower (PyStr.strip "author")) "author") with true.
  cbn [orb]. rewrite !In_map_filter.
  unfold title_or_author_matches, field_matches.
  change (String.eqb (str_lower (PyStr.strip "title")) "title") with true.
  change (String.eqb (str_lower (PyStr.strip "author")) "title") with false.
  cbv iota. split.
  - intros (b & Hin & Hmatch & Hfmt). apply orb_true_iff in Hmatch.
    destruct Hmatch as [Hm | Hm]; [left | right]; exists b; auto.
  - intros [(b & Hin & Hm & Hfmt) | (b & Hin & Hm & Hfmt)]; exists b;
      repeat split; try assumption; apply orb_true_iff; [left | right]; exact Hm.
Qed.

(** X20.  Every record a search returns is one of the records of the
    catalog page of the same catalog, and a search never returns more
    records than the catalog has books. *)
Theorem search_results_are_catalog_records
    (search_term search_type : option string) (w : world DB C) :
  incl (fst (search_books_in_catalog search_term search_type w))
       (fst (get_catalog_display w))
  /\ (length (fst (search_books_in_catalog search_term search_type w))
      <= length (or_empty (get_all_books (w_db w))))%nat.
Proof.
  destruct search_term as [term | ].
  2: { split; [intros d Hd; destruct Hd | cbn; lia]. }
  destruct (string_dec (PyStr.strip term) EmptyString) as [Hblank | Hterm].
  { rewrite search_books_in_catalog_blank by exact Hblank.
    split; [intros d Hd; destruct Hd | cbn; lia]. }
  rewrite search_books_in_catalog_steps by exact Hterm. cbv zeta.
  unfold get_catalog_display, bind, query, ret. cbn [fst].
  split.
  - intros d Hd.
    destruct (String.eqb _ "isbn");
      [ | destruct (String.eqb _ "title" || String.eqb _ "author")];
      apply In_map_filter in Hd; destruct Hd as (b & Hin & _ & <-);
      apply in_map; exact Hin.
  - rewrite length_map.
    destruct (String.eqb _ "isbn");
      [ | destruct (String.eqb _ "title" || String.eqb _ "author")];
      apply filter_length_le.
Qed.

(** X21.  The catalog page has one record per book, in the order of
    [get_all_books]; each record says the book can be borrowed exactly
    when its available count is positive, and a book whose dictionary
    has no counts is shown with 0 copies and cannot be borrowed. *)
Theorem catalog_display_records (w : world DB C) :
  let books := or_empty (get_all_books (w_db w)) in
  let page := fst (get_catalog_display w) in
  length page = length books
  /\ map d_title page = map row_title books
  /\ Forall (fun d => d_can_borrow d = true <-> 0 < d_available_copies d) page
  /\ (forall b, In b books -> row_available_copies b = None ->
                exists d, In d page /\ d_title d = row_title b
                          /\ d_available_copies d = 0 /\ d_can_borrow d = false).
Proof.
  intros books page. subst page books.
  unfold get_catalog_display, bind, query, ret. cbn [fst].
  repeat split.
  - apply length_map.
  - rewrite map_map. reflexivity.
  - apply Forall_forall. intros d Hd. apply in_map_iff in Hd.
    destruct Hd as (b & <- & _). cbn [format_book d_can_borrow d_available_copies].
    rewrite Z.gtb_ltb. apply Z.ltb_lt.
  - intros b Hin Hnone. exists (format_book b).
    split; [apply in_map; exact Hin | ].
    unfold format_book. rewrite Hnone. repeat split.
Qed.

End CatalogProperties.

(** ** The status page *)

Section RouteProperties.

Context {DB C : Type}.
Context `{Persistence DB} `{Clock C} `{DatetimeParsing}.

(** X22.  For a [patron_id] parameter of ASCII text (or none), the
    status page renders [patron_status.html] with the stripped patron
    ID.  Without an ID it shows no report, flashes
    nothing and calls nothing.  With an ID of six digits it shows the
    report of the service and flashes nothing.  With any other ID it
    shows the [invalid_patron_id] shell, flashes the error once and
    leaves the state as it is. *)
Theorem status_page (patron_id_arg : option string) (w : world DB C) :
  is_ascii (str_or_empty patron_id_arg) = true ->
  let patron_id := PyStr.strip (str_or_empty patron_id_arg) in
  let page := fst (status patron_id_arg w) in
  template page = "patron_status.html"
  /\ ctx_patron_id page = patron_id
  /\ (patron_id = EmptyString ->
      status patron_id_arg w = (mkrendered [] "patron_status.html" EmptyString None, w))
  /\ (six_digits patron_id ->
      status patron_id_arg w
      = (mkrendered [] "patron_status.html" patron_id
                    (Some (fst (get_patron_status_report patron_id w))),
         snd (get_patron_status_report patron_id w)))
  /\ (patron_id <> EmptyString -> ~ six_digits patron_id ->
      status patron_id_arg w
      = (mkrendered [("Invalid patron ID. Must be exactly 6 digits.", "error")]
                    "patron_status.html" patron_id
                    (Some (mkreport patron_id [] 0 0%Q [] "invalid_patron_id")),
         w)).
Proof.
  intros _ patron_id page. subst page.
  unfold status. fold patron_id.
  destruct (PyStr.truthy patron_id) eqn:Htruthy.
  - assert (Hne : patron_id <> EmptyString).
    { intros Hempty. rewrite Hempty in Htruthy. discriminate. }
    unfold bind, ret.
    destruct (patron_id_rejected patron_id) eqn:Hid.
    + unfold get_patron_status_report. rewrite Hid. cbn.
      apply patron_id_rejected_true_iff in Hid.
      repeat split; try reflexivity; intros; try contradiction; reflexivity.
    + apply patron_id_rejected_false_iff in Hid.
      rewrite (get_patron_status_report_valid patron_id w Hid).
      destruct (current_borrows_loop _ 0%Q [] w) as [[total_fees entries] w'].
      cbn. repeat split; try reflexivity; intros; try contradiction; reflexivity.
  - apply truthy_false_iff in Htruthy.
    assert (Hnot : ~ six_digits patron_id).
    { rewrite Htruthy. intros [Hlen _]. discriminate Hlen. }
    cbn [fst template ctx_patron_id ret].
    split; [reflexivity | split; [reflexivity | split; [ | split]]].
    + intros _. rewrite Htruthy. reflexivity.
    + intros Hsix. contradiction.
    + intros Hne. contradiction.
Qed.

(** X23.  Whitespace around the ID in the query string does not count:
    the page of a padded ID is the page of the stripped ID. *)
Theorem status_page_ignores_padding (patron_id_arg : string) (w : world DB C) :
  status (Some patron_id_arg) w = status (Some (PyStr.strip patron_id_arg)) w.
Proof.
  unfold status. cbn [str_or_empty]. rewrite strip_fixed. reflexivity.
Qed.

End RouteProperties.

(** ** Reading dates *)

Section ParsingProperties.

Context `{DatetimeParsing}.

(** X24.  [_parse_dt] gives up on a text only when [strptime] rejects it
    under each of the three formats and [fromisoformat] rejects it too;
    a [datetime] comes back as it is, and a value that is neither text
    nor [datetime] gives [None]. *)
Theorem _parse_dt_gives_up_last (s : string) :
  (_parse_dt (VStr s) = None
   <-> strptime s "%Y-%m-%d %H:%M:%S" = None
       /\ strptime s "%Y-%m-%dT%H:%M:%S" = None
       /\ strptime s "%Y-%m-%d" = None
       /\ fromisoformat s = None)
  /\ (forall d, _parse_dt (VDatetime d) = Some d)
  /\ _parse_dt VNone = None
  /\ (forall n, _parse_dt (VInt n) = None).
Proof.
  split; [ | repeat split].
  cbn [_parse_dt _parse_dt_formats].
  destruct (strptime s "%Y-%m-%d %H:%M:%S"); [split; [discriminate | intros [? _]; discriminate] | ].
  destruct (strptime s "%Y-%m-%dT%H:%M:%S");
    [split; [discriminate | intros (_ & ? & _); discriminate] | ].
  destruct (strptime s "%Y-%m-%d");
    [split; [discriminate | intros (_ & _ & ? & _); discriminate] | ].
  split; [intros Hiso; repeat split; exact Hiso | intros (_ & _ & _ & Hiso); exact Hiso].
Qed.

End ParsingProperties.

(** ** The further properties at work on the samples *)

Import Mocked.
Import Shelf.

Lemma calculate_late_fee_for_book_statuses_witness :
  calculate_late_fee_for_book "123456" 999 (mkworld Sample.db0 (Sample.jan 14))
  = (mkfee_info (Some 0%Q) 0 None "not_found", mkworld Sample.db0 (Sample.jan 14)).
Proof.
  apply (proj1 (proj2 (calculate_late_fee_for_book_statuses "123456" 999
                         (mkworld Sample.db0 (Sample.jan 14))))).
  reflexivity.
Defined.

Lemma calculate_late_fee_unreadable_due_date_witness :
  fst (calculate_late_fee_for_book "123456" 7 (mkworld Mocked.db (Sample.jan 14)))
  = mkfee_info (Some 0%Q) 0 (Some None) "not_overdue".
Proof.
  exact (calculate_late_fee_unreadable_due_date "123456" 7
           (mkworld Mocked.db (Sample.jan 14))
           (mkborrowed 7 "Undated" (VStr "soon")) eq_refl eq_refl).
Defined.

Lemma pay_late_fees_gateway_stage_witness :
  pay_late_fees "123456" 1 (Some Sample.declining) (mkworld Sample.db0 (Sample.jan 14))
  = (((false, "Payment failed: Card declined", None),
      Some (mkmock (process_payment_answer Sample.declining)
                   (refund_payment_answer Sample.declining)
                   [ProcessPayment "123456" 2 "Late fees for 'Dune'"])),
     mkworld Sample.db0 (Sample.jan 14)).
Proof.
  pose proof (pay_late_fees_gateway_stage "123456" 1 (Some Sample.declining)
                (mkworld Sample.db0 (Sample.jan 14))
                (mkborrowed 1 "Dune" (VDatetime (Sample.jan 10))) Sample.dune
                six_digits_123456 eq_refl eq_refl) as Hstage.
  vm_compute in Hstage. destruct (Hstage eq_refl) as [_ Hrun]. exact Hrun.
Defined.

Lemma pay_late_fees_without_loan_witness :
  pay_late_fees "123456" 2 (Some Sample.approving) (mkworld Sample.db0 (Sample.jan 14))
  = (((false, "No late fees to pay for this book.", None), Some Sample.approving),
     mkworld Sample.db0 (Sample.jan 14)).
Proof.
  exact (pay_late_fees_without_loan "123456" 2 (Some Sample.approving)
           (mkworld Sample.db0 (Sample.jan 14)) six_digits_123456 eq_refl).
Defined.

Lemma return_reports_fee_iff_after_due_witness :
  snd (fst (return_book_by_patron "123456" 1 (mkworld Mocked.db (Sample.jan 22))))
  = "Returned " ++ PyStr.dquote ++ "Mock Title" ++ PyStr.dquote
    ++ ". Late fee: $8.50 (overdue by 12 day(s)).".
Proof.
  pose proof (return_reports_fee_iff_after_due "123456" 1
                (mkworld Mocked.db (Sample.jan 22))
                (mkbook 1 "Mock Title" "Mock Author" "1234567890123" 2 1)
                (mkborrowed 1 "Mock Title" (VStr "2024-01-10"))
                (mkdatetime (mkdate 2024 1 10) 0 0 0 0)
                six_digits_123456 eq_refl eq_refl eq_refl
                ltac:(unfold valid_date; cbn; lia)) as Hreturn.
  vm_compute in Hreturn.
  refine (f_equal (fun r => snd (fst r)) (Hreturn _ eq_refl eq_refl)).
  repeat split; discriminate.
Defined.

Lemma return_with_unreadable_due_date_witness :
  snd (fst (return_book_by_patron "123456" 7 (mkworld Mocked.db (Sample.jan 22))))
  = "Returned " ++ PyStr.dquote ++ "Mock Title" ++ PyStr.dquote
    ++ " on time. No late fee.".
Proof.
  pose proof (return_with_unreadable_due_date "123456" 7
                (mkworld Mocked.db (Sample.jan 22))
                (mkbook 1 "Mock Title" "Mock Author" "1234567890123" 2 1)
                (mkborrowed 7 "Undated" (VStr "soon"))
                six_digits_123456 eq_refl eq_refl eq_refl) as Hreturn.
  vm_compute in Hreturn.
  exact (f_equal (fun r => snd (fst r)) (Hreturn eq_refl eq_refl)).
Defined.

Lemma status_report_lists_active_loans_witness :
  r_current_borrow_count
    (fst (get_patron_status_report "123456" (mkworld Mocked.db (Sample.jan 22)))) = 2
  /\ map cb_book_id
       (r_current_borrows
          (fst (get_patron_status_report "123456" (mkworld Mocked.db (Sample.jan 22)))))
     = [1; 7].
Proof.
  destruct (status_report_lists_active_loans "123456"
              (mkworld Mocked.db (Sample.jan 22)) six_digits_123456)
    as (_ & _ & Hcount & Hids & _).
  split; [exact Hcount | exact Hids].
Defined.

Lemma status_report_total_is_sum_witness :
  (r_total_late_fees
     (fst (get_patron_status_report "123456" (mkworld Mocked.db (Sample.jan 22))))
   == sum_late_fees
        (r_current_borrows
           (fst (get_patron_status_report "123456"
                   (mkworld Mocked.db (Sample.jan 22))))))%Q.
Proof.
  exact (proj1 (status_report_total_is_sum "123456"
                  (mkworld Mocked.db (Sample.jan 22)) six_digits_123456)).
Defined.

Lemma add_book_to_catalog_succeeds_iff_witness :
  fst (fst (add_book_to_catalog "  Dune  " "Frank Herbert" "9780441013593" 2
              (mkworld Sample.empty_db (Sample.jan 20)))) = true.
Proof.
  apply (proj2 (add_book_to_catalog_succeeds_iff "  Dune  " "Frank Herbert"
                  "9780441013593" 2 (mkworld Sample.empty_db (Sample.jan 20))
                  eq_refl eq_refl eq_refl)).
  repeat split; try (vm_compute; discriminate).
Defined.

Lemma search_blank_term_witness :
  search_books_in_catalog (Some "   ") (Some "title") (mkworld Shelf.rows (Sample.jan 1))
  = ([], mkworld Shelf.rows (Sample.jan 1)).
Proof.
  exact (search_blank_term (Some "   ") (Some "title")
           (mkworld Shelf.rows (Sample.jan 1)) eq_refl).
Defined.

Lemma search_isbn_by_digits_witness :
  search_books_in_catalog (Some "978 0743273565") (Some "isbn")
    (mkworld Shelf.rows (Sample.jan 1))
  = search_books_in_catalog (Some "9780743273565") (Some "isbn")
      (mkworld Shelf.rows (Sample.jan 1))
  /\ search_books_in_catalog (Some "no digits") (Some "isbn")
       (mkworld Shelf.rows (Sample.jan 1))
     = ([], mkworld Shelf.rows (Sample.jan 1)).
Proof.
  split.
  - apply (proj1 (search_isbn_by_digits "978 0743273565" "9780743273565"
                    (mkworld Shelf.rows (Sample.jan 1)) eq_refl eq_refl
                    ltac:(vm_compute; discriminate) ltac:(vm_compute; discriminate))).
    reflexivity.
  - apply (proj2 (search_isbn_by_digits "no digits" "9780743273565"
                    (mkworld Shelf.rows (Sample.jan 1)) eq_refl eq_refl
                    ltac:(vm_compute; discriminate) ltac:(vm_compute; discriminate))).
    reflexivity.
Defined.

Lemma search_ignores_case_witness :
  search_books_in_catalog (Some "GREAT") (Some "title") (mkworld Shelf.rows (Sample.jan 1))
  = search_books_in_catalog (Some "great") (Some "title")
      (mkworld Shelf.rows (Sample.jan 1)).
Proof.
  exact (search_ignores_case "GREAT" "great" (Some "title")
           (mkworld Shelf.rows (Sample.jan 1)) eq_refl).
Defined.

Lemma search_fallback_is_title_or_author_witness :
  In (format_book Shelf.mockingbird)
     (fst (search_books_in_catalog (Some "harper") (Some "publisher")
             (mkworld Shelf.rows (Sample.jan 1)))).
Proof.
  apply (proj2 (search_fallback_is_title_or_author "harper" "publisher"
                  (mkworld Shelf.rows (Sample.jan 1)) (format_book Shelf.mockingbird)
                  eq_refl
                  ltac:(vm_compute; discriminate) ltac:(vm_compute; discriminate)
                  ltac:(vm_compute; discriminate))).
  right. vm_compute. left. reflexivity.
Defined.

Lemma status_page_witness :
  status (Some " 12A456 ") (mkworld Sample.db0 (Sample.jan 14))
  = (mkrendered [("Invalid patron ID. Must be exactly 6 digits.", "error")]
                "patron_status.html" "12A456"
                (Some (mkreport "12A456" [] 0 0%Q [] "invalid_patron_id")),
     mkworld Sample.db0 (Sample.jan 14)).
Proof.
  apply (proj2 (proj2 (proj2 (proj2 (status_page (Some " 12A456 ")
                                       (mkworld Sample.db0 (Sample.jan 14))
                                       eq_refl))))).
  - vm_compute. discriminate.
  - exact not_six_digits_12A456.
Defined.

Example search_examples :
  let w := mkworld Shelf.rows (Sample.jan 1) in
  map d_title (fst (search_books_in_catalog (Some "great") (Some "title") w))
  = [Some "The Great Gatsby"; Some "Great Expectations"]
  /\ map d_title (fst (search_books_in_catalog (Some "978-0743273565") (Some " ISBN ") w))
     = [Some "The Great Gatsby"]
  /\ map d_title (fst (search_books_in_catalog (Some "scott") (Some "author") w))
     = [Some "The Great Gatsby"]
  /\ map d_availability (fst (get_catalog_display w)) = ["2 / 3"; "0 / 1"; "0 / 0"]
  /\ map d_can_borrow (fst (get_catalog_display w)) = [true; false; false].
Proof. repeat split. Qed.

Example status_page_padded_id :
  flashed (fst (status (Some " 123456 ") (mkworld Sample.db0 (Sample.jan 14)))) = []
  /\ option_map r_status
       (ctx_report (fst (status (Some " 123456 ") (mkworld Sample.db0 (Sample.jan 14)))))
     = Some "ok"
  /\ r_status (fst (get_patron_status_report " 123456 "
                      (mkworld Sample.db0 (Sample.jan 14))))
     = "invalid_patron_id".
Proof. repeat split. Qed.
